(** * avalon.fusion.pipeline: container metadata protocol

    A shallow embedding of [avalon/fusion/pipeline.py].  The module is a
    client of the Fusion scripting API: every operation is a sequence of
    calls into the host ([SetData], [GetData], [GetToolList], [Lock], ...).
    The host is modelled as an explicit state (a fake host session) that
    records the tools of the composition, their attached data, the lock and
    undo state, and the sequence of API calls performed; the functions of the
    module are programs in a state-and-exception monad over that state. *)

From stdpp Require Import base option list strings gmap fin_maps pretty.
From Stdlib Require Import ZArith Lia.

Local Open Scope string_scope.

(** ** Python values *)

(** The values the module passes to [str()] or receives from [GetData].
    [PyObj shown] stands for any other object (a bson ObjectId, a loader
    class, ...): the module only ever calls [str()] on it, and [shown] is
    what its [__str__] returns.  Strings are Python [str]. *)
Inductive pyval : Type :=
  | PyNone
  | PyBool (b : bool)
  | PyInt (z : Z)
  | PyStr (s : string)
  | PyObj (shown : string).

#[global] Instance pyval_eq_dec : EqDecision pyval.
Proof. solve_decision. Defined.

(** [str(v)] *)
Definition py_str (v : pyval) : string :=
  match v with
  | PyNone => "None"
  | PyBool true => "True"
  | PyBool false => "False"
  | PyInt z => pretty z
  | PyStr s => s
  | PyObj shown => shown
  end.

(** ["avalon.{}".format(key)] *)
Definition avalon_key (key : string) : string := "avalon." ++ key.

(** ** Exceptions *)

(** A tool handle is the position of the tool in the composition. *)
Abbreviation handle := nat (only parsing).

Inductive exn : Type :=
  | KeyError (key : string)
  | TypeError
  | AttributeError (attr : string)
  | ImportError (module_name : string)
  | HostObjectUnavailable (tool : handle)
  | OtherError (msg : string).

#[global] Instance exn_eq_dec : EqDecision exn.
Proof. solve_decision. Defined.

Inductive result (A : Type) : Type :=
  | Ok (a : A)
  | Raise (e : exn).
Arguments Ok {A} a.
Arguments Raise {A} e.

(** ** The host session *)

(** Modelled from the spec: the host node capability surface (section 6),
    which is the Fusion scripting API and not code of this module.  A tool
    has a display name, a kind identifier and attached key/value data. *)
Record tool_obj : Type := mkTool {
  tool_Name : string;
  tool_ID : string;
  tool_data : gmap string pyval
}.

Inductive comp_handle : Type := TheComp.

Record fusion_obj : Type := mkFusion {
  CurrentComp : option comp_handle
}.

(** API calls, in the order the host receives them. *)
Inductive event : Type :=
  | CallSetData (tool : handle) (key : string) (value : pyval)
  | CallGetData (tool : handle) (key : string)
  | CallGetToolList (selected : bool)
  | CallLock
  | CallUnlock
  | CallStartUndo (name : string)
  | CallEndUndo
  | CallPrint (text : string)
  | CallRegisterHost (name : string).

#[global] Instance event_eq_dec : EqDecision event.
Proof. solve_decision. Defined.

Inductive log_level : Type := DEBUG | WARNING.

Inductive log_handler : Type :=
  | CompLogHandler (fmt : option string)
  | StreamHandler (name : string).

(** Modelled from the spec: the state of the host process (sections 4.2,
    4.3, 4.4 and 6): the ambient [fusion] object of [__main__], the tools of
    the composition in listing order (a tool handle is its position), the
    edit lock, the undo chunks, the console, the hosts registered with
    pyblish and the root logger. *)
Record host : Type := mkHost {
  main_fusion : option fusion_obj;
  tools : list tool_obj;
  lock_depth : nat;
  undo_open : list string;
  undo_history : list string;
  console : list string;
  registered_hosts : list string;
  root_handlers : list log_handler;
  root_level : log_level;
  calls : list event
}.

Definition set_tools (ts : list tool_obj) (h : host) : host :=
  mkHost (main_fusion h) ts (lock_depth h) (undo_open h) (undo_history h)
         (console h) (registered_hosts h) (root_handlers h) (root_level h)
         (calls h).

Definition set_lock_depth (n : nat) (h : host) : host :=
  mkHost (main_fusion h) (tools h) n (undo_open h) (undo_history h)
         (console h) (registered_hosts h) (root_handlers h) (root_level h)
         (calls h).

Definition set_undo (open done : list string) (h : host) : host :=
  mkHost (main_fusion h) (tools h) (lock_depth h) open done
         (console h) (registered_hosts h) (root_handlers h) (root_level h)
         (calls h).

Definition set_console (out : list string) (h : host) : host :=
  mkHost (main_fusion h) (tools h) (lock_depth h) (undo_open h) (undo_history h)
         out (registered_hosts h) (root_handlers h) (root_level h)
         (calls h).

Definition set_registered_hosts (hs : list string) (h : host) : host :=
  mkHost (main_fusion h) (tools h) (lock_depth h) (undo_open h) (undo_history h)
         (console h) hs (root_handlers h) (root_level h)
         (calls h).

Definition set_root_handlers (hs : list log_handler) (h : host) : host :=
  mkHost (main_fusion h) (tools h) (lock_depth h) (undo_open h) (undo_history h)
         (console h) (registered_hosts h) hs (root_level h)
         (calls h).

Definition set_root_level (l : log_level) (h : host) : host :=
  mkHost (main_fusion h) (tools h) (lock_depth h) (undo_open h) (undo_history h)
         (console h) (registered_hosts h) (root_handlers h) l
         (calls h).

Definition record_call (e : event) (h : host) : host :=
  mkHost (main_fusion h) (tools h) (lock_depth h) (undo_open h) (undo_history h)
         (console h) (registered_hosts h) (root_handlers h) (root_level h)
         (calls h ++ [e]).

(** ** The state-and-exception monad *)

Definition hostM (A : Type) : Type := host -> host * result A.

Definition hret {A} (a : A) : hostM A := fun h => (h, Ok a).

Definition hraise {A} (e : exn) : hostM A := fun h => (h, Raise e).

Definition hbind {A B} (m : hostM A) (k : A -> hostM B) : hostM B :=
  fun h =>
    match m h with
    | (h1, Ok a) => k a h1
    | (h1, Raise e) => (h1, Raise e)
    end.

#[global] Instance hostM_ret : MRet hostM := @hret.
#[global] Instance hostM_bind : MBind hostM := fun A B k m => hbind m k.

(** [try: body finally: fin] *)
Definition try_finally {A} (body : hostM A) (fin : hostM unit) : hostM A :=
  fun h =>
    match body h with
    | (h1, r) =>
        match fin h1 with
        | (h2, Ok _) => (h2, r)
        | (h2, Raise e) => (h2, Raise e)
        end
    end.

(** [for x in xs: body x] *)
Fixpoint for_each {A} (xs : list A) (body : A -> hostM unit) : hostM unit :=
  match xs with
  | [] => hret tt
  | x :: rest => body x;; for_each rest body
  end.

(** ** Host API *)

(** Modelled from the spec: [SetData(key, value)] of the host node surface;
    it attaches the value under the key, replacing a previous one, and fails
    with host-object-unavailable on a handle that names no tool. *)
Definition SetData (tool : handle) (key : string) (value : pyval) : hostM unit :=
  fun h =>
    match tools h !! tool with
    | None => (h, Raise (HostObjectUnavailable tool))
    | Some t =>
        let t' := mkTool (tool_Name t) (tool_ID t) (<[key := value]> (tool_data t)) in
        (record_call (CallSetData tool key value) (set_tools (<[tool := t']> (tools h)) h),
         Ok tt)
    end.

(** Modelled from the spec: [GetData(key) -> value-or-absent]; a key that
    was never set reads as [None]. *)
Definition GetData (tool : handle) (key : string) : hostM pyval :=
  fun h =>
    match tools h !! tool with
    | None => (h, Raise (HostObjectUnavailable tool))
    | Some t =>
        (record_call (CallGetData tool key) h,
         Ok (default PyNone (tool_data t !! key)))
    end.

(** [tool.Name] *)
Definition get_Name (tool : handle) : hostM string :=
  fun h =>
    match tools h !! tool with
    | None => (h, Raise (HostObjectUnavailable tool))
    | Some t => (h, Ok (tool_Name t))
    end.

(** [tool.ID] *)
Definition get_ID (tool : handle) : hostM string :=
  fun h =>
    match tools h !! tool with
    | None => (h, Raise (HostObjectUnavailable tool))
    | Some t => (h, Ok (tool_ID t))
    end.

(** Modelled from the spec: the session surface of section 6.
    [comp.GetToolList(selected).values()] lists the handles of the tools of
    the composition in listing order; a method call on [None] (no session)
    raises [AttributeError]. *)
Definition GetToolList (comp : option comp_handle) (selected : bool)
  : hostM (list handle) :=
  fun h =>
    match comp with
    | None => (h, Raise (AttributeError "GetToolList"))
    | Some _ => (record_call (CallGetToolList selected) h,
                 Ok (seq 0 (length (tools h))))
    end.

Definition Lock (comp : option comp_handle) : hostM unit :=
  fun h =>
    match comp with
    | None => (h, Raise (AttributeError "Lock"))
    | Some _ => (record_call CallLock (set_lock_depth (S (lock_depth h)) h), Ok tt)
    end.

Definition Unlock (comp : option comp_handle) : hostM unit :=
  fun h =>
    match comp with
    | None => (h, Raise (AttributeError "Unlock"))
    | Some _ => (record_call CallUnlock (set_lock_depth (pred (lock_depth h)) h), Ok tt)
    end.

Definition StartUndo (comp : option comp_handle) (name : string) : hostM unit :=
  fun h =>
    match comp with
    | None => (h, Raise (AttributeError "StartUndo"))
    | Some _ => (record_call (CallStartUndo name)
                   (set_undo (name :: undo_open h) (undo_history h) h), Ok tt)
    end.

Definition EndUndo (comp : option comp_handle) : hostM unit :=
  fun h =>
    match comp with
    | None => (h, Raise (AttributeError "EndUndo"))
    | Some _ =>
        (record_call CallEndUndo
           match undo_open h with
           | [] => h
           | name :: outer => set_undo outer (undo_history h ++ [name]) h
           end, Ok tt)
    end.

Definition Print (comp : option comp_handle) (text : string) : hostM unit :=
  fun h =>
    match comp with
    | None => (h, Raise (AttributeError "Print"))
    | Some _ => (record_call (CallPrint text) (set_console (console h ++ [text]) h), Ok tt)
    end.

(** Modelled from the spec: the plugin registration call of section 6. *)
Definition register_host (name : string) : hostM unit :=
  fun h =>
    (record_call (CallRegisterHost name)
       (if bool_decide (name ∈ registered_hosts h) then h
        else set_registered_hosts (registered_hosts h ++ [name]) h), Ok tt).

(** ** The module *)

(** [get_current_comp]: [fusion.CurrentComp if fusion else None] *)
Definition get_current_comp : hostM (option comp_handle) :=
  fun h =>
    (h, Ok match main_fusion h with
           | Some fusion => CurrentComp fusion
           | None => None
           end).

(** [CompLogHandler.emit(record)]; [format] is [self.format], the
    formatter of the logging library applied to the record. *)
Definition emit (format : string -> string) (record : string) : hostM unit :=
  let entry := format record in
  comp ← get_current_comp;
  match comp with
  | Some _ => Print comp entry
  | None => mret tt
  end.

(** *** Containers *)

(** A slot of the container dictionary: a value read from the tool, or the
    reference to the tool object itself. *)
Inductive cell : Type :=
  | Val (v : pyval)
  | ToolRef (tool : handle).

#[global] Instance cell_eq_dec : EqDecision cell.
Proof. solve_decision. Defined.

(** The [context] argument: a dictionary whose entries are either nested
    dictionaries or values that cannot be subscripted by a string. *)
Inductive ctx_entry : Type :=
  | CtxDict (d : gmap string pyval)
  | CtxVal (v : pyval).

(** [d[key]] on a dictionary *)
Definition getitem {V} (d : gmap string V) (key : string) : hostM V :=
  match d !! key with
  | Some v => mret v
  | None => hraise (KeyError key)
  end.

(** [entry[key]] on an entry of the context *)
Definition getitem_entry (entry : ctx_entry) (key : string) : hostM pyval :=
  match entry with
  | CtxDict d => getitem d key
  | CtxVal _ => hraise TypeError
  end.

Definition schema_value : string := "avalon-core:container-2.0".
Definition id_value : string := "pyblish.avalon.container".

(** The [data] list of [imprint_container], given the looked-up [_id]. *)
Definition imprint_data (name namespace loader _id : pyval)
  : list (string * pyval) :=
  [ ("schema", PyStr schema_value);
    ("id", PyStr id_value);
    ("name", PyStr (py_str name));
    ("namespace", PyStr (py_str namespace));
    ("loader", PyStr (py_str loader));
    ("representation", PyStr (py_str _id)) ].

(** [imprint_container(tool, name, namespace, context, loader=None)];
    [loader = None] models the omitted argument. *)
Definition imprint_container (tool : handle) (name namespace : pyval)
    (context : gmap string ctx_entry) (loader : option pyval) : hostM unit :=
  let loader := default PyNone loader in
  representation ← getitem context "representation";
  _id ← getitem_entry representation "_id";
  let data := imprint_data name namespace loader _id in
  for_each data (fun kv => SetData tool (avalon_key kv.1) kv.2).

(** The keys [parse_container] reads. *)
Definition parse_keys : list string :=
  ["schema"; "id"; "name"; "namespace"; "loader"; "representation"].

Fixpoint parse_loop (tool : handle) (keys : list string)
    (container : gmap string cell) : hostM (gmap string cell) :=
  match keys with
  | [] => mret container
  | key :: rest =>
      value ← GetData tool (avalon_key key);
      parse_loop tool rest (<[key := Val value]> container)
  end.

(** [parse_container(tool)] *)
Definition parse_container (tool : handle) : hostM (gmap string cell) :=
  container ← parse_loop tool parse_keys ∅;
  Name ← get_Name tool;
  let container := <["objectName" := Val (PyStr Name)]> container in
  let container := <["_tool" := ToolRef tool]> container in
  mret container.

(** *** Scoped edit session *)

(** [with comp_lock_and_undo_chunk(comp, undo_queue_name): with_body].
    The generator of the context manager is suspended at its [yield] while
    the body of the [with] statement runs; an exception of the body is
    thrown into the generator at the [yield], inside the [try]. *)
Definition comp_lock_and_undo_chunk {A} (comp : option comp_handle)
    (undo_queue_name : option string) (with_body : hostM A) : hostM A :=
  let undo_queue_name := default "Script CMD" undo_queue_name in
  try_finally
    (Lock comp;; StartUndo comp undo_queue_name;; with_body)
    (Unlock comp;; EndUndo comp).

(** *** Listing containers *)

(** [ls] is a generator function.  Its generator object is either not yet
    started, suspended at the [yield] with the rest of the tool list still
    to visit, or finished. *)
Inductive ls_generator : Type :=
  | LsCreated
  | LsSuspended (pending : list handle)
  | LsFinished.

(** The [for tool in tools] loop, run up to the next [yield] ([Some]) or to
    the end of the function ([None]). *)
Fixpoint ls_loop (pending : list handle)
  : hostM (ls_generator * option (gmap string cell)) :=
  match pending with
  | [] => mret (LsFinished, None)
  | tool :: rest =>
      ID ← get_ID tool;
      if bool_decide (ID ∈ ["Loader"]) then
        container ← parse_container tool;
        mret (LsSuspended rest, Some container)
      else ls_loop rest
  end.

(** The body of [ls] from its first line. *)
Definition ls_body : hostM (ls_generator * option (gmap string cell)) :=
  comp ← get_current_comp;
  tools ← GetToolList comp false;
  ls_loop tools.

(** [ls()]: calling the generator function runs none of its body. *)
Definition ls : ls_generator := LsCreated.

(** [next(gen)]: [Ok (Some c)] is a yielded container, [Ok None] is
    [StopIteration]; an exception raised in the body finishes the
    generator. *)
Definition next (gen : ls_generator)
  : host -> host * (ls_generator * result (option (gmap string cell))) :=
  fun h =>
    let resume :=
      match gen with
      | LsCreated => ls_body
      | LsSuspended pending => ls_loop pending
      | LsFinished => mret (LsFinished, None)
      end in
    match resume h with
    | (h1, Ok (gen1, item)) => (h1, (gen1, Ok item))
    | (h1, Raise e) => (h1, (LsFinished, Raise e))
    end.

(** [list(gen)]: call [next] until [StopIteration].  [None] when the fuel
    runs out before the generator is exhausted. *)
Fixpoint consume (fuel : nat) (gen : ls_generator) (h : host)
  : option (host * (ls_generator * result (list (gmap string cell)))) :=
  match fuel with
  | O => None
  | S fuel =>
      match next gen h with
      | (h1, (gen1, Raise e)) => Some (h1, (gen1, Raise e))
      | (h1, (gen1, Ok None)) => Some (h1, (gen1, Ok []))
      | (h1, (gen1, Ok (Some item))) =>
          match consume fuel gen1 h1 with
          | Some (h2, (gen2, Ok items)) => Some (h2, (gen2, Ok (item :: items)))
          | other => other
          end
      end
  end.

(** Running a program on each element in turn and collecting the results. *)
Fixpoint for_collect {A B} (xs : list A) (f : A -> hostM B) : hostM (list B) :=
  match xs with
  | [] => mret []
  | x :: rest => y ← f x; ys ← for_collect rest f; mret (y :: ys)
  end.

(** *** Installation *)

#[global] Instance log_handler_eq_dec : EqDecision log_handler.
Proof. solve_decision. Defined.

(** [logging.root.removeHandler(handler)] *)
Fixpoint remove_first (x : log_handler) (l : list log_handler) : list log_handler :=
  match l with
  | [] => []
  | y :: rest => if decide (x = y) then rest else y :: remove_first x rest
  end.

Definition removeHandler (handler : log_handler) : hostM unit :=
  fun h => (set_root_handlers (remove_first handler (root_handlers h)) h, Ok tt).

(** [logger.addHandler(handler)] *)
Definition addHandler (handler : log_handler) : hostM unit :=
  fun h =>
    (if bool_decide (handler ∈ root_handlers h) then h
     else set_root_handlers (root_handlers h ++ [handler]) h, Ok tt).

Definition setLevel (level : log_level) : hostM unit :=
  fun h => (set_root_level level h, Ok tt).

(** A module object, as far as [install] looks at it: its [install]
    attribute, if it has one, is a callable without arguments. *)
Record pymodule : Type := mkModule {
  mod_install : option (hostM unit)
}.

(** What importing a module name does: the module is found and loads, or
    its own code raises while loading.  A name that is not in the table does
    not exist. *)
Inductive import_outcome : Type :=
  | Imported (m : pymodule)
  | ImportFails (e : exn).

(** [importlib.import_module(name)] *)
Definition import_module (sys_path : gmap string import_outcome)
    (name : string) : hostM pymodule :=
  match sys_path !! name with
  | None => hraise (ImportError name)
  | Some (Imported m) => mret m
  | Some (ImportFails e) => hraise e
  end.

(** [try: body except ImportError: pass else: orelse] *)
Definition try_import_else {A} (body : hostM A) (orelse : A -> hostM unit)
  : hostM unit :=
  fun h =>
    match body h with
    | (h1, Ok a) => orelse a h1
    | (h1, Raise (ImportError _)) => (h1, Ok tt)
    | (h1, Raise e) => (h1, Raise e)
    end.

(** The format string ["%(message)s\n"], ending in a line feed. *)
Definition message_line : string :=
  "%(message)s" ++ String (Ascii.ascii_of_nat 10) EmptyString.

(** Lines 45 to 58 of [install]: host registration and the log handler. *)
Definition install_hooks : hostM unit :=
  register_host "fusion";;
  handlers ← (fun h => (h, Ok (root_handlers h)));
  for_each handlers removeHandler;;
  let formatter := Some message_line in
  let handler := CompLogHandler formatter in
  addHandler handler;;
  setLevel DEBUG.

(** [install(config)]; [config_name] is [config.__name__]. *)
Definition install (sys_path : gmap string import_outcome)
    (config_name : string) : hostM unit :=
  install_hooks;;
  try_import_else
    (import_module sys_path (config_name ++ ".fusion"))
    (fun config =>
       match mod_install config with
       | Some config_install => config_install
       | None => mret tt
       end).

(** * Vocabulary of the statements *)

(** The host after the calls [es] were received, everything else equal. *)
Definition record_calls (es : list event) (h : host) : host :=
  mkHost (main_fusion h) (tools h) (lock_depth h) (undo_open h) (undo_history h)
         (console h) (registered_hosts h) (root_handlers h) (root_level h)
         (calls h ++ es).

(** The data of a tool after the pairs [kvs] were attached in order. *)
Definition attach (kvs : list (string * pyval)) (d : gmap string pyval)
  : gmap string pyval :=
  foldl (fun d kv => <[avalon_key kv.1 := kv.2]> d) d kvs.

Definition with_data (d : gmap string pyval) (t : tool_obj) : tool_obj :=
  mkTool (tool_Name t) (tool_ID t) d.

Definition set_data_calls (tool : handle) (kvs : list (string * pyval)) : list event :=
  map (fun kv => CallSetData tool (avalon_key kv.1) kv.2) kvs.

Definition get_data_calls (tool : handle) (keys : list string) : list event :=
  map (fun key => CallGetData tool (avalon_key key)) keys.

(** The dictionary [parse_container] builds from a tool. *)
Definition read_fields (t : tool_obj) (keys : list string)
    (container : gmap string cell) : gmap string cell :=
  foldl (fun c key => <[key := Val (default PyNone (tool_data t !! avalon_key key))]> c)
        container keys.

Definition container_of (tool : handle) (t : tool_obj) : gmap string cell :=
  <["_tool" := ToolRef tool]>
    (<["objectName" := Val (PyStr (tool_Name t))]> (read_fields t parse_keys ∅)).

(** A context that has the nested [representation._id] path. *)
Definition context_id (context : gmap string ctx_entry) : option pyval :=
  match context !! "representation" with
  | Some (CtxDict d) => d !! "_id"
  | _ => None
  end.

(** The tool at this position is of the ["Loader"] kind. *)
Definition is_loader (ts : list tool_obj) (tool : handle) : bool :=
  match ts !! tool with
  | Some t => bool_decide (tool_ID t ∈ ["Loader"])
  | None => false
  end.

(** The containers of the tools at these positions. *)
Definition containers_of (ts : list tool_obj) (handles : list handle)
  : list (gmap string cell) :=
  omap (fun tool => container_of tool <$> ts !! tool) handles.

Definition parse_calls (handles : list handle) : list event :=
  concat (map (fun tool => get_data_calls tool parse_keys) handles).

(** ** Example data

    The example of the specification: a composition with two loaders and a
    merge tool, and the context of a representation ["60f"]. *)

Definition example_tools : list tool_obj :=
  [ mkTool "Loader1" "Loader" ∅;
    mkTool "Merge1" "Merge" ∅;
    mkTool "Loader2" "Loader" {["avalon.name" := PyStr "old"]} ].

Definition example_host : host :=
  mkHost (Some (mkFusion (Some TheComp))) example_tools 0 [] [] [] []
         [StreamHandler "stderr"] WARNING [].

Definition example_representation : gmap string pyval :=
  {["_id" := PyObj "60f"]}.

Definition example_context : gmap string ctx_entry :=
  {["representation" := CtxDict example_representation]}.

Definition example_config : pymodule :=
  mkModule (Some (Print (Some TheComp) "config installed")).

Definition example_sys_path : gmap string import_outcome :=
  {["polly.fusion" := Imported example_config]}.

(** A call that only reads from the host. *)
Definition is_read_call (e : event) : bool :=
  match e with
  | CallGetData _ _ | CallGetToolList _ => true
  | _ => false
  end.

(** The keys of the dictionary [parse_container] returns. *)
Definition container_keys : gset string :=
  list_to_set (parse_keys ++ ["objectName"; "_tool"])%list.

(** The session is reachable from [__main__]. *)
Definition comp_reachable (h : host) : bool :=
  match main_fusion h with
  | Some fusion => bool_decide (is_Some (CurrentComp fusion))
  | None => false
  end.

(** A host process in which no [fusion] object was injected. *)
Definition example_host_no_fusion : host :=
  mkHost None example_tools 0 [] [] [] [] [StreamHandler "stderr"] WARNING [].

(** A configuration whose submodule fails while it loads, and one whose
    submodule imports a module that does not exist. *)
Definition example_sys_path_broken : gmap string import_outcome :=
  {["polly.fusion" := ImportFails (OtherError "syntax error")]}.

Definition example_sys_path_nested : gmap string import_outcome :=
  {["polly.fusion" := ImportFails (ImportError "pyblish_qml")]}.

(** * Properties *)

(** ** Stating what a run did *)

Lemma record_calls_nil h : record_calls [] h = h.
Proof. destruct h; unfold record_calls; simpl. by rewrite app_nil_r. Qed.

Lemma with_data_id t : with_data (tool_data t) t = t.
Proof. by destruct t. Qed.

Lemma set_tools_id h : set_tools (tools h) h = h.
Proof. by destruct h. Qed.

Lemma for_each_SetData kvs : forall h tool t,
  tools h !! tool = Some t ->
  for_each kvs (fun kv => SetData tool (avalon_key kv.1) kv.2) h
  = (record_calls (set_data_calls tool kvs)
       (set_tools (<[tool := with_data (attach kvs (tool_data t)) t]> (tools h)) h),
     Ok tt).
Proof.
  induction kvs as [|[k v] kvs IH]; intros h tool t Ht.
  - simpl. rewrite with_data_id, list_insert_id by done.
    by rewrite set_tools_id, record_calls_nil.
  - cbn [for_each]. unfold mbind, hostM_bind, hbind.
    unfold SetData at 1. rewrite Ht. cbn [fst snd].
    erewrite IH; last first.
    { cbn. apply list_lookup_insert_eq. by eapply lookup_lt_Some. }
    destruct h; cbn. unfold record_calls, set_tools; cbn.
    rewrite list_insert_insert_eq, <- app_assoc. done.
Qed.

Lemma imprint_container_ok h tool t name namespace context loader _id :
  tools h !! tool = Some t ->
  context_id context = Some _id ->
  let data := imprint_data name namespace (default PyNone loader) _id in
  imprint_container tool name namespace context loader h
  = (record_calls (set_data_calls tool data)
       (set_tools (<[tool := with_data (attach data (tool_data t)) t]> (tools h)) h),
     Ok tt).
Proof.
  intros Ht Hid data. unfold context_id in Hid.
  destruct (context !! "representation") as [[d|v]|] eqn:Hrep; try done.
  unfold imprint_container, mbind, hostM_bind, hbind, getitem.
  rewrite Hrep. cbn [mret hostM_ret hret getitem_entry]. unfold getitem.
  rewrite Hid. cbn [mret hostM_ret hret].
  by apply for_each_SetData.
Qed.

Lemma parse_loop_ok keys : forall h tool t container,
  tools h !! tool = Some t ->
  parse_loop tool keys container h
  = (record_calls (get_data_calls tool keys) h, Ok (read_fields t keys container)).
Proof.
  induction keys as [|key keys IH]; intros h tool t container Ht.
  - cbn. by rewrite record_calls_nil.
  - cbn [parse_loop]. unfold mbind, hostM_bind, hbind.
    unfold GetData at 1. rewrite Ht.
    erewrite IH by (cbn; exact Ht).
    destruct h; cbn. unfold record_calls; cbn. by rewrite <- app_assoc.
Qed.

Lemma parse_container_ok h tool t :
  tools h !! tool = Some t ->
  parse_container tool h
  = (record_calls (get_data_calls tool parse_keys) h, Ok (container_of tool t)).
Proof.
  intros Ht. unfold parse_container, mbind, hostM_bind, hbind.
  erewrite parse_loop_ok by exact Ht.
  unfold get_Name. cbn [tools record_calls]. by rewrite Ht.
Qed.

Lemma tools_after_imprint h tool t d :
  tools h !! tool = Some t ->
  tools (set_tools (<[tool := with_data d t]> (tools h)) h) !! tool
  = Some (with_data d t).
Proof.
  intros Ht. cbn. apply list_lookup_insert_eq. by eapply lookup_lt_Some.
Qed.

Ltac lookup_literal :=
  cbn [foldl fst snd attach read_fields imprint_data parse_keys];
  unfold avalon_key; cbn [String.append];
  repeat first [ rewrite lookup_insert_eq | rewrite lookup_insert_ne by done ];
  try done.

Lemma container_of_field tool t key :
  key ∈ parse_keys ->
  container_of tool t !! key
  = Some (Val (default PyNone (tool_data t !! avalon_key key))).
Proof.
  unfold parse_keys. rewrite !elem_of_cons, elem_of_nil.
  intros [->|[->|[->|[->|[->|[->|[]]]]]]]; unfold container_of; lookup_literal.
Qed.

Lemma container_of_objectName tool t :
  container_of tool t !! "objectName" = Some (Val (PyStr (tool_Name t))).
Proof. unfold container_of. lookup_literal. Qed.

Lemma container_of_tool tool t :
  container_of tool t !! "_tool" = Some (ToolRef tool).
Proof. unfold container_of. lookup_literal. Qed.

Lemma attach_imprint_data name namespace loader _id d :
  let d' := attach (imprint_data name namespace loader _id) d in
  d' !! "avalon.schema" = Some (PyStr "avalon-core:container-2.0") /\
  d' !! "avalon.id" = Some (PyStr "pyblish.avalon.container") /\
  d' !! "avalon.name" = Some (PyStr (py_str name)) /\
  d' !! "avalon.namespace" = Some (PyStr (py_str namespace)) /\
  d' !! "avalon.loader" = Some (PyStr (py_str loader)) /\
  d' !! "avalon.representation" = Some (PyStr (py_str _id)).
Proof. cbv zeta. repeat split; lookup_literal. Qed.

(** ** Round trip *)

(** C1: on a tool of the composition and a context that has
    [representation._id], [imprint_container] followed by [parse_container]
    succeeds and returns a container whose [name], [namespace], [loader] and
    [representation] are the [str()] of the arguments and whose [schema] and
    [id] are the two fixed strings. *)
Theorem imprint_parse_roundtrip
    (h : host) (tool : handle) (t : tool_obj) (name namespace loader _id : pyval)
    (context : gmap string ctx_entry) (d : gmap string pyval) :
  tools h !! tool = Some t ->
  context !! "representation" = Some (CtxDict d) ->
  d !! "_id" = Some _id ->
  exists h' container,
    (imprint_container tool name namespace context (Some loader);;
     parse_container tool) h = (h', Ok container) /\
    container !! "name" = Some (Val (PyStr (py_str name))) /\
    container !! "namespace" = Some (Val (PyStr (py_str namespace))) /\
    container !! "loader" = Some (Val (PyStr (py_str loader))) /\
    container !! "representation" = Some (Val (PyStr (py_str _id))) /\
    container !! "schema" = Some (Val (PyStr "avalon-core:container-2.0")) /\
    container !! "id" = Some (Val (PyStr "pyblish.avalon.container")).
Proof.
  intros Ht Hrep Hid.
  assert (Hctx : context_id context = Some _id) by (unfold context_id; by rewrite Hrep).
  unfold mbind, hostM_bind, hbind.
  rewrite (imprint_container_ok _ _ _ _ _ _ _ _ Ht Hctx).
  erewrite parse_container_ok; last first.
  { cbn [tools record_calls]. by apply tools_after_imprint. }
  eexists _, _. split; [reflexivity|].
  destruct (attach_imprint_data name namespace loader _id (tool_data t))
    as (Hs & Hi & Hn & Hns & Hl & Hr).
  rewrite !container_of_field by (unfold parse_keys; set_solver).
  pose (field := fun o : option pyval => Some (Val (default PyNone o))).
  repeat split;
    [ exact (f_equal field Hn) | exact (f_equal field Hns)
    | exact (f_equal field Hl) | exact (f_equal field Hr)
    | exact (f_equal field Hs) | exact (f_equal field Hi) ].
Qed.

(** ** The persisted keys *)

(** C2: [imprint_container] performs exactly six [SetData] calls on the
    tool, under the keys [avalon.schema], [avalon.id], [avalon.name],
    [avalon.namespace], [avalon.loader] and [avalon.representation], the
    first two with the values ["avalon-core:container-2.0"] and
    ["pyblish.avalon.container"]; afterwards the data of the tool is its
    former data with those six pairs attached, and [parse_container]
    performs exactly six [GetData] calls, on the same six keys. *)
Theorem imprint_parse_six_keys
    (h : host) (tool : handle) (t : tool_obj) (name namespace _id : pyval)
    (loader : option pyval)
    (context : gmap string ctx_entry) (d : gmap string pyval) :
  tools h !! tool = Some t ->
  context !! "representation" = Some (CtxDict d) ->
  d !! "_id" = Some _id ->
  exists h1 h2 container,
    imprint_container tool name namespace context loader h = (h1, Ok tt) /\
    calls h1 = (calls h ++
      [ CallSetData tool "avalon.schema" (PyStr "avalon-core:container-2.0");
        CallSetData tool "avalon.id" (PyStr "pyblish.avalon.container");
        CallSetData tool "avalon.name" (PyStr (py_str name));
        CallSetData tool "avalon.namespace" (PyStr (py_str namespace));
        CallSetData tool "avalon.loader" (PyStr (py_str (default PyNone loader)));
        CallSetData tool "avalon.representation" (PyStr (py_str _id)) ])%list /\
    tools h1 !! tool = Some (mkTool (tool_Name t) (tool_ID t)
      (<["avalon.representation" := PyStr (py_str _id)]>
       (<["avalon.loader" := PyStr (py_str (default PyNone loader))]>
        (<["avalon.namespace" := PyStr (py_str namespace)]>
         (<["avalon.name" := PyStr (py_str name)]>
          (<["avalon.id" := PyStr "pyblish.avalon.container"]>
           (<["avalon.schema" := PyStr "avalon-core:container-2.0"]>
            (tool_data t)))))))) /\
    parse_container tool h1 = (h2, Ok container) /\
    calls h2 = (calls h1 ++
      [ CallGetData tool "avalon.schema"; CallGetData tool "avalon.id";
        CallGetData tool "avalon.name"; CallGetData tool "avalon.namespace";
        CallGetData tool "avalon.loader"; CallGetData tool "avalon.representation" ])%list.
Proof.
  intros Ht Hrep Hid.
  assert (Hctx : context_id context = Some _id) by (unfold context_id; by rewrite Hrep).
  rewrite (imprint_container_ok _ _ _ _ _ _ _ _ Ht Hctx).
  eexists _, _, _. split; [reflexivity|].
  split; [reflexivity|].
  split; [cbn [tools record_calls]; by apply tools_after_imprint|].
  erewrite parse_container_ok; last first.
  { cbn [tools record_calls]. by apply tools_after_imprint. }
  split; reflexivity.
Qed.

(** ** Imprinting again *)

Lemma attach_imprint_data_twice name1 namespace1 loader1 _id1
    name2 namespace2 loader2 _id2 (d : gmap string pyval) :
  attach (imprint_data name2 namespace2 loader2 _id2)
    (attach (imprint_data name1 namespace1 loader1 _id1) d)
  = attach (imprint_data name2 namespace2 loader2 _id2) d.
Proof.
  apply map_eq; intros key.
  cbn [foldl fst snd attach imprint_data]. unfold avalon_key.
  rewrite !lookup_insert. repeat case_decide; done.
Qed.

(** C3: after two [imprint_container] calls on the same tool, each of the
    six [avalon.<field>] keys holds the value of the second call; the tools
    are exactly as if only the second call had been made, and so is the
    container [parse_container] returns. *)
Theorem reimprint_overwrites
    (h : host) (tool : handle) (t : tool_obj)
    (name1 namespace1 _id1 name2 namespace2 _id2 : pyval)
    (loader1 loader2 : option pyval)
    (context1 context2 : gmap string ctx_entry) (d1 d2 : gmap string pyval) :
  tools h !! tool = Some t ->
  context1 !! "representation" = Some (CtxDict d1) -> d1 !! "_id" = Some _id1 ->
  context2 !! "representation" = Some (CtxDict d2) -> d2 !! "_id" = Some _id2 ->
  exists h12 h2 t' container h12' h2',
    (imprint_container tool name1 namespace1 context1 loader1;;
     imprint_container tool name2 namespace2 context2 loader2) h = (h12, Ok tt) /\
    imprint_container tool name2 namespace2 context2 loader2 h = (h2, Ok tt) /\
    tools h12 = tools h2 /\
    tools h12 !! tool = Some t' /\
    tool_data t' !! "avalon.schema" = Some (PyStr "avalon-core:container-2.0") /\
    tool_data t' !! "avalon.id" = Some (PyStr "pyblish.avalon.container") /\
    tool_data t' !! "avalon.name" = Some (PyStr (py_str name2)) /\
    tool_data t' !! "avalon.namespace" = Some (PyStr (py_str namespace2)) /\
    tool_data t' !! "avalon.loader" = Some (PyStr (py_str (default PyNone loader2))) /\
    tool_data t' !! "avalon.representation" = Some (PyStr (py_str _id2)) /\
    parse_container tool h12 = (h12', Ok container) /\
    parse_container tool h2 = (h2', Ok container).
Proof.
  intros Ht Hrep1 Hid1 Hrep2 Hid2.
  assert (Hctx1 : context_id context1 = Some _id1) by (unfold context_id; by rewrite Hrep1).
  assert (Hctx2 : context_id context2 = Some _id2) by (unfold context_id; by rewrite Hrep2).
  unfold mbind, hostM_bind, hbind.
  rewrite (imprint_container_ok _ _ _ _ _ _ _ _ Ht Hctx1).
  set (data1 := imprint_data name1 namespace1 (default PyNone loader1) _id1).
  set (data2 := imprint_data name2 namespace2 (default PyNone loader2) _id2).
  pose proof (tools_after_imprint h tool t (attach data1 (tool_data t)) Ht) as Ht1.
  erewrite imprint_container_ok; [|cbn [tools record_calls]; exact Ht1|exact Hctx2].
  rewrite (imprint_container_ok _ _ _ _ _ _ _ _ Ht Hctx2).
  fold data2.
  assert (Htools :
    <[tool := with_data (attach data2 (tool_data (with_data (attach data1 (tool_data t)) t)))
                (with_data (attach data1 (tool_data t)) t)]>
      (<[tool := with_data (attach data1 (tool_data t)) t]> (tools h))
    = <[tool := with_data (attach data2 (tool_data t)) t]> (tools h)).
  { rewrite list_insert_insert_eq. cbn [with_data tool_data tool_Name tool_ID].
    unfold data1, data2. by rewrite attach_imprint_data_twice. }
  pose proof (tools_after_imprint h tool t (attach data2 (tool_data t)) Ht) as Ht2.
  destruct (attach_imprint_data name2 namespace2 (default PyNone loader2) _id2 (tool_data t))
    as (Hs & Hi & Hn & Hns & Hl & Hr).
  eexists _, _, (with_data (attach data2 (tool_data t)) t), _, _, _.
  split; [reflexivity|]. split; [reflexivity|].
  split; [cbn [tools record_calls set_tools]; exact Htools|].
  split; [cbn [tools record_calls set_tools]; rewrite Htools; exact Ht2|].
  do 6 (split; [assumption|]).
  split.
  - apply parse_container_ok. cbn [tools record_calls set_tools].
    rewrite Htools. exact Ht2.
  - erewrite parse_container_ok; [reflexivity|]. exact Ht2.
Qed.

(** ** Parsing tolerates missing data *)

(** C4: on every tool of the composition [parse_container] returns a
    container; it holds the tool's name under [objectName] and the tool
    handle under [_tool]; each of the six fields whose key was never set on
    the tool is [None], so on a tool without any data all six are. *)
Theorem parse_container_total
    (h : host) (tool : handle) (t : tool_obj) :
  tools h !! tool = Some t ->
  exists h' container,
    parse_container tool h = (h', Ok container) /\
    tools h' = tools h /\
    container !! "objectName" = Some (Val (PyStr (tool_Name t))) /\
    container !! "_tool" = Some (ToolRef tool) /\
    (forall key, key ∈ parse_keys ->
       tool_data t !! avalon_key key = None ->
       container !! key = Some (Val PyNone)) /\
    (tool_data t = ∅ ->
       container !! "schema" = Some (Val PyNone) /\
       container !! "id" = Some (Val PyNone) /\
       container !! "name" = Some (Val PyNone) /\
       container !! "namespace" = Some (Val PyNone) /\
       container !! "loader" = Some (Val PyNone) /\
       container !! "representation" = Some (Val PyNone)).
Proof.
  intros Ht. rewrite (parse_container_ok _ _ _ Ht).
  eexists _, _. split; [reflexivity|].
  split; [reflexivity|].
  split; [apply container_of_objectName|].
  split; [apply container_of_tool|].
  assert (Hmissing : forall key, key ∈ parse_keys ->
            tool_data t !! avalon_key key = None ->
            container_of tool t !! key = Some (Val PyNone)).
  { intros key Hkey Hnone. rewrite container_of_field by done. by rewrite Hnone. }
  split; [exact Hmissing|].
  intros Hempty.
  repeat split; apply Hmissing;
    solve [ unfold parse_keys; set_solver | rewrite Hempty; apply lookup_empty ].
Qed.

(** ** Scoped edit session *)

(** C5: for every session, label and body, the body of the [with] statement
    starts in the host state reached by [Lock] followed by [StartUndo] with
    the label (lock taken, chunk open); whatever the body returns or raises,
    the host then receives [Unlock] followed by [EndUndo] (lock released,
    innermost chunk closed), and the outcome of the body is the outcome of
    the whole statement. *)
Theorem comp_lock_and_undo_chunk_scoped
    {A : Type} (comp : comp_handle) (undo_queue_name : option string)
    (with_body : hostM A) (h : host) :
  exists h_in h_out h' outcome,
    (Lock (Some comp);;
     StartUndo (Some comp) (default "Script CMD" undo_queue_name)) h = (h_in, Ok tt) /\
    calls h_in
      = (calls h ++ [CallLock; CallStartUndo (default "Script CMD" undo_queue_name)])%list /\
    lock_depth h_in = S (lock_depth h) /\
    undo_open h_in = default "Script CMD" undo_queue_name :: undo_open h /\
    with_body h_in = (h_out, outcome) /\
    comp_lock_and_undo_chunk (Some comp) undo_queue_name with_body h = (h', outcome) /\
    calls h' = (calls h_out ++ [CallUnlock; CallEndUndo])%list /\
    lock_depth h' = pred (lock_depth h_out) /\
    undo_open h' = tail (undo_open h_out).
Proof.
  unfold comp_lock_and_undo_chunk, try_finally, mbind, hostM_bind, hbind.
  cbn [Lock StartUndo Unlock EndUndo].
  match goal with |- context [with_body ?s] => set (h_in := s) end.
  destruct (with_body h_in) as [h_out outcome] eqn:Hbody.
  exists h_in, h_out. eexists _, outcome.
  split; [reflexivity|].
  split; [subst h_in; destruct h; cbn; by rewrite <- app_assoc|].
  split; [reflexivity|]. split; [reflexivity|]. split; [exact Hbody|].
  destruct outcome as [a|e]; (split; [reflexivity|]);
    destruct h_out as [? ? ? [|? ?] ? ? ? ? ? ?]; cbn; rewrite <- app_assoc; done.
Qed.

(** ** Malformed contexts *)

Lemma imprint_container_no_representation h tool name namespace context loader :
  context !! "representation" = None ->
  imprint_container tool name namespace context loader h
  = (h, Raise (KeyError "representation")).
Proof.
  intros Hrep. unfold imprint_container, mbind, hostM_bind, hbind, getitem.
  by rewrite Hrep.
Qed.

Lemma imprint_container_no_id h tool name namespace context loader d :
  context !! "representation" = Some (CtxDict d) ->
  d !! "_id" = None ->
  imprint_container tool name namespace context loader h
  = (h, Raise (KeyError "_id")).
Proof.
  intros Hrep Hid. unfold imprint_container, mbind, hostM_bind, hbind, getitem.
  rewrite Hrep. cbn [mret hostM_ret hret getitem_entry]. unfold getitem.
  by rewrite Hid.
Qed.

(** C6: when the context has no ["representation"] key, or its
    ["representation"] dictionary has no ["_id"] key, [imprint_container]
    does not complete: it raises the [KeyError] of the missing key.  When it
    does complete, what it returns is the unit value ([None]). *)
Theorem imprint_container_malformed_context
    (h : host) (tool : handle) (name namespace : pyval)
    (context : gmap string ctx_entry) (loader : option pyval) :
  (context !! "representation" = None ->
     exists h', imprint_container tool name namespace context loader h
                = (h', Raise (KeyError "representation"))) /\
  (forall d, context !! "representation" = Some (CtxDict d) -> d !! "_id" = None ->
     exists h', imprint_container tool name namespace context loader h
                = (h', Raise (KeyError "_id"))) /\
  (forall h' r, imprint_container tool name namespace context loader h = (h', Ok r) ->
     r = tt).
Proof.
  split; [|split].
  - intros Hrep. eexists. by apply imprint_container_no_representation.
  - intros d Hrep Hid. eexists. by eapply imprint_container_no_id.
  - intros h' []. done.
Qed.

(** C9: on a context without the [representation._id] path
    [imprint_container] raises before any [SetData] call: the host it
    leaves is the host it found, so no call was received and no data of
    any tool was written or changed. *)
Theorem imprint_container_atomic
    (h : host) (tool : handle) (name namespace : pyval)
    (context : gmap string ctx_entry) (loader : option pyval) :
  context !! "representation" = None \/
  (exists d, context !! "representation" = Some (CtxDict d) /\ d !! "_id" = None) ->
  exists h' e,
    imprint_container tool name namespace context loader h = (h', Raise e) /\
    h' = h /\ calls h' = calls h /\ tools h' = tools h.
Proof.
  intros [Hrep|(d & Hrep & Hid)].
  - exists h, (KeyError "representation").
    by rewrite imprint_container_no_representation.
  - exists h, (KeyError "_id").
    by erewrite imprint_container_no_id.
Qed.

(** ** The default loader *)

(** C10: with the loader omitted, or passed as [None],
    [imprint_container] stores the string ["None"] under [avalon.loader],
    exactly as it does for a loader that is the string ["None"], and
    [parse_container] then returns that string, not the absent value. *)
Theorem imprint_container_default_loader
    (h : host) (tool : handle) (t : tool_obj) (name namespace _id : pyval)
    (context : gmap string ctx_entry) (d : gmap string pyval) :
  tools h !! tool = Some t ->
  context !! "representation" = Some (CtxDict d) ->
  d !! "_id" = Some _id ->
  exists h1 t' h2 container,
    imprint_container tool name namespace context None h = (h1, Ok tt) /\
    imprint_container tool name namespace context (Some PyNone) h = (h1, Ok tt) /\
    imprint_container tool name namespace context (Some (PyStr "None")) h = (h1, Ok tt) /\
    tools h1 !! tool = Some t' /\
    tool_data t' !! "avalon.loader" = Some (PyStr "None") /\
    parse_container tool h1 = (h2, Ok container) /\
    container !! "loader" = Some (Val (PyStr "None")) /\
    container !! "loader" <> Some (Val PyNone).
Proof.
  intros Ht Hrep Hid.
  assert (Hctx : context_id context = Some _id) by (unfold context_id; by rewrite Hrep).
  rewrite !(imprint_container_ok _ _ _ _ _ _ _ _ Ht Hctx).
  pose proof (tools_after_imprint h tool t
    (attach (imprint_data name namespace PyNone _id) (tool_data t)) Ht) as Ht1.
  destruct (attach_imprint_data name namespace PyNone _id (tool_data t))
    as (_ & _ & _ & _ & Hl & _).
  eexists _, _, _, _.
  split; [reflexivity|]. split; [reflexivity|]. split; [reflexivity|].
  split; [exact Ht1|]. split; [exact Hl|].
  split; [apply parse_container_ok; exact Ht1|].
  rewrite container_of_field by (unfold parse_keys; set_solver).
  change (avalon_key "loader") with "avalon.loader".
  cbn [with_data tool_data]. rewrite Hl. done.
Qed.

(** ** Listing *)

Lemma record_calls_app es1 es2 h :
  record_calls es2 (record_calls es1 h) = record_calls (es1 ++ es2) h.
Proof. destruct h; unfold record_calls; cbn. by rewrite <- app_assoc. Qed.

Lemma containers_of_cons ts tool t handles :
  ts !! tool = Some t ->
  containers_of ts (tool :: handles) = container_of tool t :: containers_of ts handles.
Proof. intros Ht. unfold containers_of. simpl. by rewrite Ht. Qed.

Lemma for_collect_parse handles : forall h,
  Forall (fun tool => tool < length (tools h)) handles ->
  for_collect handles parse_container h
  = (record_calls (parse_calls handles) h, Ok (containers_of (tools h) handles)).
Proof.
  induction handles as [|tool handles IH]; intros h Hvalid.
  - cbn. by rewrite record_calls_nil.
  - apply Forall_cons in Hvalid as [Htool Hvalid].
    destruct (lookup_lt_is_Some_2 _ _ Htool) as [t Ht].
    cbn [for_collect]. unfold mbind, hostM_bind, hbind.
    rewrite (parse_container_ok _ _ _ Ht).
    rewrite IH by exact Hvalid.
    rewrite record_calls_app. cbn [tools record_calls].
    by rewrite (containers_of_cons _ _ _ _ Ht).
Qed.

Lemma ls_loop_step pending : forall h,
  Forall (fun tool => tool < length (tools h)) pending ->
  match List.filter (is_loader (tools h)) pending with
  | [] => ls_loop pending h = (h, Ok (LsFinished, None))
  | tool :: rest =>
      exists t later,
        tools h !! tool = Some t /\
        ls_loop pending h
        = (record_calls (get_data_calls tool parse_keys) h,
           Ok (LsSuspended later, Some (container_of tool t))) /\
        Forall (fun tool => tool < length (tools h)) later /\
        List.filter (is_loader (tools h)) later = rest
  end.
Proof.
  induction pending as [|tool pending IH]; intros h Hvalid; [done|].
  apply Forall_cons in Hvalid as [Htool Hvalid].
  destruct (lookup_lt_is_Some_2 _ _ Htool) as [t Ht].
  cbn [List.filter ls_loop]. unfold is_loader at 1. rewrite Ht.
  unfold mbind, hostM_bind, hbind, get_ID. rewrite Ht.
  destruct (bool_decide (tool_ID t ∈ ["Loader"])) eqn:Hkind.
  - exists t, pending. rewrite (parse_container_ok _ _ _ Ht). done.
  - by apply IH.
Qed.

Lemma consume_suspended fuel : forall pending h,
  Forall (fun tool => tool < length (tools h)) pending ->
  length (List.filter (is_loader (tools h)) pending) < fuel ->
  consume fuel (LsSuspended pending) h
  = Some (record_calls (parse_calls (List.filter (is_loader (tools h)) pending)) h,
          (LsFinished,
           Ok (containers_of (tools h) (List.filter (is_loader (tools h)) pending)))).
Proof.
  induction fuel as [|fuel IH]; intros pending h Hvalid Hfuel; [lia|].
  pose proof (ls_loop_step pending h Hvalid) as Hstep.
  cbn [consume]. unfold next.
  destruct (List.filter (is_loader (tools h)) pending) as [|tool rest] eqn:Hloaders.
  - rewrite Hstep. cbn. by rewrite record_calls_nil.
  - destruct Hstep as (t & later & Ht & -> & Hlater & Hrest).
    rewrite IH; cbn [tools record_calls]; [|exact Hlater|rewrite Hrest; cbn in Hfuel; lia].
    rewrite Hrest, record_calls_app.
    by rewrite (containers_of_cons _ _ _ _ Ht).
Qed.

Lemma seq_valid (n : nat) : Forall (fun tool => tool < n) (seq 0 n).
Proof. apply Forall_forall. intros i Hi. apply elem_of_seq in Hi. lia. Qed.

(** C7: [ls()] runs nothing.  When a composition is current, the first
    [next] asks for the tool list and parses only the first tool of the
    ["Loader"] kind; consuming the generator yields, in listing order,
    exactly what [parse_container] returns on each ["Loader"] tool and
    nothing for the other tools; once finished the generator stays
    finished and yields nothing more. *)
Theorem ls_yields_loader_containers
    (h : host) (fusion : fusion_obj) (comp : comp_handle) :
  main_fusion h = Some fusion ->
  CurrentComp fusion = Some comp ->
  let listed := record_call (CallGetToolList false) h in
  let loaders := List.filter (is_loader (tools h)) (seq 0 (length (tools h))) in
  exists h' items,
    for_collect loaders parse_container listed = (h', Ok items) /\
    items = containers_of (tools h) loaders /\
    (forall fuel, length loaders < fuel ->
       consume fuel ls h = Some (h', (LsFinished, Ok items))) /\
    (forall tool rest, loaders = tool :: rest ->
       exists t later,
         tools h !! tool = Some t /\
         next ls h = (record_calls (get_data_calls tool parse_keys) listed,
                      (LsSuspended later, Ok (Some (container_of tool t)))) /\
         List.filter (is_loader (tools h)) later = rest) /\
    (loaders = [] -> next ls h = (listed, (LsFinished, Ok None))) /\
    (forall h1, next LsFinished h1 = (h1, (LsFinished, Ok None))).
Proof.
  intros Hfusion Hcomp listed loaders.
  assert (Hvalid : Forall (fun tool => tool < length (tools listed))
                     (seq 0 (length (tools h)))) by apply seq_valid.
  assert (Hvalid' : Forall (fun tool => tool < length (tools listed)) loaders).
  { apply Forall_forall. intros i Hi. apply list_elem_of_In, filter_In in Hi as [Hi _].
    apply list_elem_of_In, elem_of_seq in Hi. cbn. lia. }
  assert (Hbody : ls_body h = ls_loop (seq 0 (length (tools h))) listed).
  { unfold ls_body, mbind, hostM_bind, hbind, get_current_comp, GetToolList.
    by rewrite Hfusion, Hcomp. }
  rewrite (for_collect_parse loaders listed Hvalid').
  eexists _, _. split; [reflexivity|]. split; [reflexivity|].
  pose proof (ls_loop_step _ listed Hvalid) as Hstep.
  change (tools listed) with (tools h) in Hstep. fold loaders in Hstep.
  split; [|split; [|split]].
  - intros [|fuel] Hfuel; [lia|]. cbn [consume]. unfold ls, next. rewrite Hbody.
    destruct loaders as [|tool rest] eqn:Hloaders.
    + rewrite Hstep. change (parse_calls []) with (@nil event).
      by rewrite record_calls_nil.
    + destruct Hstep as (t & later & Ht & -> & Hlater & Hrest).
      rewrite consume_suspended; cbn [tools record_calls];
        change (tools listed) with (tools h);
        [|exact Hlater|rewrite Hrest; cbn in Hfuel; lia].
      rewrite Hrest, record_calls_app.
      by rewrite (containers_of_cons _ _ _ _ Ht).
  - intros tool rest Hloaders. rewrite Hloaders in Hstep.
    destruct Hstep as (t & later & Ht & Hloop & Hlater & Hrest).
    exists t, later. split; [exact Ht|]. split; [|exact Hrest].
    unfold ls, next. by rewrite Hbody, Hloop.
  - intros Hloaders. rewrite Hloaders in Hstep.
    unfold ls, next. by rewrite Hbody, Hstep.
  - intros h1. reflexivity.
Qed.

(** ** Installation *)

Lemma remove_all_handlers handlers : forall h,
  root_handlers h = handlers ->
  exists h1,
    for_each handlers removeHandler h = (h1, Ok tt) /\
    h1 = set_root_handlers [] h.
Proof.
  induction handlers as [|x handlers IH]; intros h Hh.
  - exists h. split; [done|]. destruct h; cbn in *. by subst.
  - cbn [for_each]. unfold mbind, hostM_bind, hbind. unfold removeHandler at 1.
    destruct (IH (set_root_handlers (remove_first x (root_handlers h)) h)) as (h1 & -> & ->).
    { rewrite Hh. cbn. by rewrite decide_True. }
    eexists. split; [reflexivity|]. by destruct h.
Qed.

Lemma install_hooks_ok h :
  exists h1,
    install_hooks h = (h1, Ok tt) /\
    calls h1 = (calls h ++ [CallRegisterHost "fusion"])%list /\
    "fusion" ∈ registered_hosts h1 /\
    root_handlers h1 = [CompLogHandler (Some message_line)] /\
    root_level h1 = DEBUG /\
    tools h1 = tools h.
Proof.
  unfold install_hooks, mbind, hostM_bind, hbind. unfold register_host at 1.
  cbv beta iota. set (h0 := record_call _ _).
  destruct (remove_all_handlers (root_handlers h0) h0 eq_refl) as (h1 & Hrun & Hh1).
  rewrite Hrun. subst h1.
  eexists. split; [reflexivity|].
  subst h0. destruct h as [? ? ? ? ? ? hosts ? ? ?]; cbn.
  rewrite (bool_decide_eq_false_2 (_ ∈ [])) by apply not_elem_of_nil.
  destruct (bool_decide ("fusion" ∈ hosts)) eqn:Hreg; cbn; repeat split; try done.
  - by apply bool_decide_eq_true in Hreg.
  - apply elem_of_app. right. apply list_elem_of_singleton. done.
Qed.

(** C8: [install] first registers the host and attaches the log handler.
    Then, when the module [<config>.fusion] does not exist, the
    [ImportError] is swallowed and [install] completes; when the module
    exists and has an [install] attribute, that entry point is called
    without arguments and [install] ends as it ends; when the module has no
    such attribute, [install] completes. *)
Theorem install_optional_config
    (sys_path : gmap string import_outcome) (config_name : string) (h : host) :
  exists h1,
    install_hooks h = (h1, Ok tt) /\
    (sys_path !! (config_name ++ ".fusion") = None ->
       install sys_path config_name h = (h1, Ok tt)) /\
    (forall config config_install,
       sys_path !! (config_name ++ ".fusion") = Some (Imported config) ->
       mod_install config = Some config_install ->
       install sys_path config_name h = config_install h1) /\
    (forall config,
       sys_path !! (config_name ++ ".fusion") = Some (Imported config) ->
       mod_install config = None ->
       install sys_path config_name h = (h1, Ok tt)).
Proof.
  destruct (install_hooks_ok h) as (h1 & Hhooks & _).
  exists h1. split; [exact Hhooks|].
  unfold install, mbind, hostM_bind, hbind. rewrite Hhooks.
  unfold try_import_else, import_module.
  split; [|split].
  - intros ->. reflexivity.
  - intros config config_install -> Hattr. cbn. by rewrite Hattr.
  - intros config -> Hattr. cbn. by rewrite Hattr.
Qed.

(** * The properties on the example *)

Lemma imprint_parse_roundtrip_example :
  exists h' container,
    (imprint_container 0 (PyStr "chair_01") (PyStr "charA") example_context
       (Some (PyStr "ModelLoader"));;
     parse_container 0) example_host = (h', Ok container) /\
    container !! "name" = Some (Val (PyStr "chair_01")) /\
    container !! "namespace" = Some (Val (PyStr "charA")) /\
    container !! "loader" = Some (Val (PyStr "ModelLoader")) /\
    container !! "representation" = Some (Val (PyStr "60f")) /\
    container !! "schema" = Some (Val (PyStr "avalon-core:container-2.0")) /\
    container !! "id" = Some (Val (PyStr "pyblish.avalon.container")).
Proof.
  apply (imprint_parse_roundtrip example_host 0 (mkTool "Loader1" "Loader" ∅)
           (PyStr "chair_01") (PyStr "charA") (PyStr "ModelLoader") (PyObj "60f")
           example_context example_representation); reflexivity.
Defined.

Lemma imprint_parse_six_keys_example :
  exists h1 h2 container,
    imprint_container 2 (PyStr "chair_01") (PyStr "charA") example_context None
      example_host = (h1, Ok tt) /\
    calls h1 =
      [ CallSetData 2 "avalon.schema" (PyStr "avalon-core:container-2.0");
        CallSetData 2 "avalon.id" (PyStr "pyblish.avalon.container");
        CallSetData 2 "avalon.name" (PyStr "chair_01");
        CallSetData 2 "avalon.namespace" (PyStr "charA");
        CallSetData 2 "avalon.loader" (PyStr "None");
        CallSetData 2 "avalon.representation" (PyStr "60f") ] /\
    tools h1 !! 2 = Some (mkTool "Loader2" "Loader"
      (<["avalon.representation" := PyStr "60f"]>
       (<["avalon.loader" := PyStr "None"]>
        (<["avalon.namespace" := PyStr "charA"]>
         (<["avalon.name" := PyStr "chair_01"]>
          (<["avalon.id" := PyStr "pyblish.avalon.container"]>
           (<["avalon.schema" := PyStr "avalon-core:container-2.0"]>
            {["avalon.name" := PyStr "old"]}))))))) /\
    parse_container 2 h1 = (h2, Ok container) /\
    calls h2 = (calls h1 ++
      [ CallGetData 2 "avalon.schema"; CallGetData 2 "avalon.id";
        CallGetData 2 "avalon.name"; CallGetData 2 "avalon.namespace";
        CallGetData 2 "avalon.loader"; CallGetData 2 "avalon.representation" ])%list.
Proof.
  exact (imprint_parse_six_keys example_host 2
           (mkTool "Loader2" "Loader" {["avalon.name" := PyStr "old"]})
           (PyStr "chair_01") (PyStr "charA") (PyObj "60f") None
           example_context example_representation eq_refl eq_refl eq_refl).
Defined.

Lemma reimprint_overwrites_example :
  exists h12 h2 t' container h12' h2',
    (imprint_container 0 (PyStr "table_02") (PyStr "setB") example_context
       (Some (PyStr "RigLoader"));;
     imprint_container 0 (PyStr "chair_01") (PyStr "charA") example_context
       (Some (PyStr "ModelLoader"))) example_host = (h12, Ok tt) /\
    imprint_container 0 (PyStr "chair_01") (PyStr "charA") example_context
      (Some (PyStr "ModelLoader")) example_host = (h2, Ok tt) /\
    tools h12 = tools h2 /\
    tools h12 !! 0 = Some t' /\
    tool_data t' !! "avalon.schema" = Some (PyStr "avalon-core:container-2.0") /\
    tool_data t' !! "avalon.id" = Some (PyStr "pyblish.avalon.container") /\
    tool_data t' !! "avalon.name" = Some (PyStr "chair_01") /\
    tool_data t' !! "avalon.namespace" = Some (PyStr "charA") /\
    tool_data t' !! "avalon.loader" = Some (PyStr "ModelLoader") /\
    tool_data t' !! "avalon.representation" = Some (PyStr "60f") /\
    parse_container 0 h12 = (h12', Ok container) /\
    parse_container 0 h2 = (h2', Ok container).
Proof.
  apply (reimprint_overwrites example_host 0 (mkTool "Loader1" "Loader" ∅)
           (PyStr "table_02") (PyStr "setB") (PyObj "60f")
           (PyStr "chair_01") (PyStr "charA") (PyObj "60f")
           (Some (PyStr "RigLoader")) (Some (PyStr "ModelLoader"))
           example_context example_context
           example_representation example_representation); reflexivity.
Defined.

Lemma parse_container_total_example :
  exists h' container,
    parse_container 0 example_host = (h', Ok container) /\
    container !! "objectName" = Some (Val (PyStr "Loader1")) /\
    container !! "_tool" = Some (ToolRef 0) /\
    container !! "schema" = Some (Val PyNone) /\
    container !! "id" = Some (Val PyNone) /\
    container !! "name" = Some (Val PyNone) /\
    container !! "namespace" = Some (Val PyNone) /\
    container !! "loader" = Some (Val PyNone) /\
    container !! "representation" = Some (Val PyNone).
Proof.
  destruct (parse_container_total example_host 0 (mkTool "Loader1" "Loader" ∅) eq_refl)
    as (h' & container & Hparse & _ & Hname & Htool & _ & Hempty).
  exists h', container.
  split; [exact Hparse|]. split; [exact Hname|]. split; [exact Htool|].
  apply Hempty. reflexivity.
Defined.

Lemma imprint_container_malformed_context_example :
  (exists h', imprint_container 0 (PyStr "chair_01") (PyStr "charA") ∅ None example_host
              = (h', Raise (KeyError "representation"))) /\
  (exists h', imprint_container 0 (PyStr "chair_01") (PyStr "charA")
                {["representation" := CtxDict ∅]} None example_host
              = (h', Raise (KeyError "_id"))).
Proof.
  split.
  - apply (proj1 (imprint_container_malformed_context example_host 0
                    (PyStr "chair_01") (PyStr "charA") ∅ None)).
    reflexivity.
  - apply (proj1 (proj2 (imprint_container_malformed_context example_host 0
                    (PyStr "chair_01") (PyStr "charA")
                    {["representation" := CtxDict ∅]} None)) ∅); reflexivity.
Defined.

Lemma imprint_container_atomic_example :
  exists h' e,
    imprint_container 2 (PyStr "chair_01") (PyStr "charA")
      {["representation" := CtxDict ∅]} None example_host = (h', Raise e) /\
    h' = example_host /\ calls h' = calls example_host /\ tools h' = tools example_host.
Proof.
  apply (imprint_container_atomic example_host 2 (PyStr "chair_01") (PyStr "charA")
           {["representation" := CtxDict ∅]} None).
  right. exists ∅. split; reflexivity.
Defined.

Lemma imprint_container_default_loader_example :
  exists h1 t' h2 container,
    imprint_container 0 (PyStr "chair_01") (PyStr "charA") example_context None
      example_host = (h1, Ok tt) /\
    imprint_container 0 (PyStr "chair_01") (PyStr "charA") example_context
      (Some PyNone) example_host = (h1, Ok tt) /\
    imprint_container 0 (PyStr "chair_01") (PyStr "charA") example_context
      (Some (PyStr "None")) example_host = (h1, Ok tt) /\
    tools h1 !! 0 = Some t' /\
    tool_data t' !! "avalon.loader" = Some (PyStr "None") /\
    parse_container 0 h1 = (h2, Ok container) /\
    container !! "loader" = Some (Val (PyStr "None")) /\
    container !! "loader" <> Some (Val PyNone).
Proof.
  apply (imprint_container_default_loader example_host 0 (mkTool "Loader1" "Loader" ∅)
           (PyStr "chair_01") (PyStr "charA") (PyObj "60f")
           example_context example_representation); reflexivity.
Defined.

Lemma ls_yields_loader_containers_example :
  exists h' first second,
    consume 3 ls example_host = Some (h', (LsFinished, Ok [first; second])) /\
    first !! "objectName" = Some (Val (PyStr "Loader1")) /\
    second !! "objectName" = Some (Val (PyStr "Loader2")) /\
    second !! "name" = Some (Val (PyStr "old")) /\
    next LsFinished h' = (h', (LsFinished, Ok None)).
Proof.
  destruct (ls_yields_loader_containers example_host (mkFusion (Some TheComp)) TheComp
              eq_refl eq_refl)
    as (h' & items & _ & Hitems & Hconsume & _ & _ & Hdone).
  exists h', (container_of 0 (mkTool "Loader1" "Loader" ∅)),
    (container_of 2 (mkTool "Loader2" "Loader" {["avalon.name" := PyStr "old"]})).
  split.
  - rewrite (Hconsume 3); [|vm_compute; lia]. rewrite Hitems. reflexivity.
  - split; [reflexivity|]. split; [reflexivity|]. split; [reflexivity|]. apply Hdone.
Defined.

Lemma install_optional_config_example :
  exists h1,
    install_hooks example_host = (h1, Ok tt) /\
    install ∅ "polly" example_host = (h1, Ok tt) /\
    install example_sys_path "polly" example_host
    = Print (Some TheComp) "config installed" h1.
Proof.
  destruct (install_optional_config example_sys_path "polly" example_host)
    as (h1 & Hhooks & _ & Hpresent & _).
  destruct (install_optional_config ∅ "polly" example_host)
    as (h0 & Hhooks0 & Habsent & _).
  exists h1. split; [exact Hhooks|]. split.
  - rewrite Habsent by reflexivity. rewrite Hhooks in Hhooks0.
    injection Hhooks0 as <-. reflexivity.
  - apply (Hpresent example_config); reflexivity.
Defined.

(** * Further properties of the module *)

(** ** Reading never writes *)

Lemma parse_loop_unavailable keys tool container h :
  tools h !! tool = None ->
  keys <> [] ->
  parse_loop tool keys container h = (h, Raise (HostObjectUnavailable tool)).
Proof.
  intros Hnone Hkeys. destruct keys as [|key keys]; [done|].
  cbn [parse_loop]. unfold mbind, hostM_bind, hbind, GetData. by rewrite Hnone.
Qed.

Lemma parse_container_unavailable tool h :
  tools h !! tool = None ->
  parse_container tool h = (h, Raise (HostObjectUnavailable tool)).
Proof.
  intros Hnone. unfold parse_container, mbind, hostM_bind, hbind.
  by rewrite parse_loop_unavailable.
Qed.

Lemma get_data_calls_read tool keys :
  forallb is_read_call (get_data_calls tool keys) = true.
Proof. induction keys; [done|]. cbn. done. Qed.

Lemma parse_container_reads tool h :
  exists es,
    (parse_container tool h).1 = record_calls es h /\
    forallb is_read_call es = true.
Proof.
  destruct (tools h !! tool) as [t|] eqn:Ht.
  - rewrite (parse_container_ok _ _ _ Ht). eexists. split; [reflexivity|].
    apply get_data_calls_read.
  - rewrite (parse_container_unavailable _ _ Ht). exists [].
    by rewrite record_calls_nil.
Qed.


Lemma ls_loop_reads pending : forall h,
  exists es,
    (ls_loop pending h).1 = record_calls es h /\
    forallb is_read_call es = true.
Proof.
  induction pending as [|tool pending IH]; intros h.
  - exists []. by rewrite record_calls_nil.
  - cbn [ls_loop]. unfold mbind, hostM_bind, hbind, get_ID.
    destruct (tools h !! tool) as [t|] eqn:Ht.
    + destruct (bool_decide (tool_ID t ∈ ["Loader"])); [|apply IH].
      destruct (parse_container_reads tool h) as (es & Hes & Hread).
      exists es. split; [|exact Hread].
      destruct (parse_container tool h) as [h1 [c|e]]; exact Hes.
    + exists []. by rewrite record_calls_nil.
Qed.

(** X2: whatever state the generator of [ls] is in, a [next] only reads:
    the host afterwards is the host before plus recorded [GetToolList] and
    [GetData] calls; no data, lock or undo state is touched. *)
Theorem ls_next_read_only (gen : ls_generator) (h : host) :
  exists es,
    (next gen h).1 = record_calls es h /\
    forallb is_read_call es = true.
Proof.
  assert (Hwrap : forall (m : hostM (ls_generator * option (gmap string cell))),
            (exists es, (m h).1 = record_calls es h /\ forallb is_read_call es = true) ->
            exists es,
              (match m h with
               | (h1, Ok (gen1, item)) => (h1, (gen1, Ok item))
               | (h1, Raise e) => (h1, (LsFinished, Raise e))
               end).1 = record_calls es h /\ forallb is_read_call es = true).
  { intros m (es & Hes & Hread). exists es. split; [|exact Hread].
    destruct (m h) as [h1 [[g i]|e]]; exact Hes. }
  unfold next. apply Hwrap. destruct gen as [|pending|].
  - unfold ls_body, mbind, hostM_bind, hbind, get_current_comp, GetToolList.
    destruct (match main_fusion h with Some f => CurrentComp f | None => None end).
    + destruct (ls_loop_reads (seq 0 (length (tools h)))
                  (record_call (CallGetToolList false) h)) as (es & Hes & Hread).
      exists (CallGetToolList false :: es). split; [|exact Hread].
      rewrite Hes. destruct h; unfold record_calls, record_call; cbn.
      by rewrite <- app_assoc.
    + exists []. by rewrite record_calls_nil.
  - apply ls_loop_reads.
  - exists []. by rewrite record_calls_nil.
Qed.

(** ** What imprinting leaves alone *)

Lemma attach_imprint_data_other name namespace loader _id d key :
  key ∉ map avalon_key parse_keys ->
  attach (imprint_data name namespace loader _id) d !! key = d !! key.
Proof.
  intros Hkey. cbn [foldl fst snd attach imprint_data].
  cbn [map parse_keys] in Hkey. unfold avalon_key in *.
  rewrite !lookup_insert_ne; [done|..]; intros <-; apply Hkey; set_solver.
Qed.

(** X3: a successful [imprint_container] changes nothing but the six
    [avalon.<field>] keys of its tool: the other tools, the name and kind
    of the tool, every other key attached to it, the number of tools, the
    lock and the undo chunks are as before. *)
Theorem imprint_container_frame
    (h : host) (tool : handle) (t : tool_obj) (name namespace _id : pyval)
    (loader : option pyval)
    (context : gmap string ctx_entry) (d : gmap string pyval) :
  tools h !! tool = Some t ->
  context !! "representation" = Some (CtxDict d) ->
  d !! "_id" = Some _id ->
  exists h' t',
    imprint_container tool name namespace context loader h = (h', Ok tt) /\
    tools h' !! tool = Some t' /\
    tool_Name t' = tool_Name t /\
    tool_ID t' = tool_ID t /\
    (forall key, key ∉ map avalon_key parse_keys ->
       tool_data t' !! key = tool_data t !! key) /\
    (forall other, other <> tool -> tools h' !! other = tools h !! other) /\
    length (tools h') = length (tools h) /\
    lock_depth h' = lock_depth h /\
    undo_open h' = undo_open h /\
    undo_history h' = undo_history h.
Proof.
  intros Ht Hrep Hid.
  assert (Hctx : context_id context = Some _id) by (unfold context_id; by rewrite Hrep).
  rewrite (imprint_container_ok _ _ _ _ _ _ _ _ Ht Hctx).
  eexists _, _. split; [reflexivity|].
  split; [cbn [tools record_calls]; by apply tools_after_imprint|].
  split; [reflexivity|]. split; [reflexivity|].
  split; [intros key Hkey; by apply attach_imprint_data_other|].
  split; [intros other Hother; cbn; by apply list_lookup_insert_ne|].
  split; [cbn; apply length_insert|]. done.
Qed.

(** X4: only [context["representation"]["_id"]] of the context reaches
    the tool: two contexts with the same [_id] give the same run, whatever
    else they hold. *)
Theorem imprint_container_context_irrelevant
    (h : host) (tool : handle) (name namespace _id : pyval) (loader : option pyval)
    (context1 context2 : gmap string ctx_entry) (d1 d2 : gmap string pyval) :
  context1 !! "representation" = Some (CtxDict d1) -> d1 !! "_id" = Some _id ->
  context2 !! "representation" = Some (CtxDict d2) -> d2 !! "_id" = Some _id ->
  imprint_container tool name namespace context1 loader h
  = imprint_container tool name namespace context2 loader h.
Proof.
  intros Hrep1 Hid1 Hrep2 Hid2.
  unfold imprint_container, mbind, hostM_bind, hbind, getitem.
  rewrite Hrep1, Hrep2. cbn [mret hostM_ret hret getitem_entry]. unfold getitem.
  by rewrite Hid1, Hid2.
Qed.

(** X5: when [context["representation"]] is not a dictionary,
    [imprint_container] raises [TypeError] on the [_id] subscript, before
    any [SetData] call: the host is left as it was found. *)
Theorem imprint_container_representation_not_dict
    (h : host) (tool : handle) (name namespace v : pyval) (loader : option pyval)
    (context : gmap string ctx_entry) :
  context !! "representation" = Some (CtxVal v) ->
  imprint_container tool name namespace context loader h = (h, Raise TypeError).
Proof.
  intros Hrep. unfold imprint_container, mbind, hostM_bind, hbind, getitem.
  by rewrite Hrep.
Qed.

(** X6: the dictionary [parse_container] returns on a tool of the
    composition has exactly eight keys: the six fields, [objectName] and
    [_tool], whatever data the tool carries. *)
Theorem parse_container_keys (h : host) (tool : handle) (t : tool_obj) :
  tools h !! tool = Some t ->
  exists h' container,
    parse_container tool h = (h', Ok container) /\
    dom container = container_keys /\
    size container = 8.
Proof.
  intros Ht. rewrite (parse_container_ok _ _ _ Ht).
  eexists _, _. split; [reflexivity|].
  assert (Hdom : dom (container_of tool t) = container_keys).
  { unfold container_of, container_keys.
    cbn [foldl read_fields parse_keys app list_to_set].
    rewrite !dom_insert_L, dom_empty_L. set_solver. }
  split; [exact Hdom|].
  rewrite <- size_dom, Hdom. reflexivity.
Qed.

(** ** More on the scoped edit session *)


(** X8: without a session ([comp] is [None]) the statement raises the
    [AttributeError] of the [Unlock] in its [finally] clause; the body of
    the [with] statement never runs and the host is untouched. *)
Theorem comp_lock_and_undo_chunk_without_comp
    {A : Type} (undo_queue_name : option string) (with_body : hostM A) (h : host) :
  comp_lock_and_undo_chunk None undo_queue_name with_body h
  = (h, Raise (AttributeError "Unlock")).
Proof. reflexivity. Qed.


(** ** The log handler *)

(** X10: with a reachable session, [emit] prints the formatted record on
    the console of the session, with a single [Print] call, and touches
    nothing else. *)
Theorem emit_prints_on_console
    (format : string -> string) (record : string) (h : host)
    (fusion : fusion_obj) (comp : comp_handle) :
  main_fusion h = Some fusion ->
  CurrentComp fusion = Some comp ->
  exists h',
    emit format record h = (h', Ok tt) /\
    console h' = (console h ++ [format record])%list /\
    calls h' = (calls h ++ [CallPrint (format record)])%list /\
    tools h' = tools h /\
    lock_depth h' = lock_depth h /\
    undo_open h' = undo_open h.
Proof.
  intros Hfusion Hcomp.
  unfold emit, mbind, hostM_bind, hbind, get_current_comp.
  rewrite Hfusion, Hcomp. eexists. split; [reflexivity|]. done.
Qed.

(** X11: when [__main__] has no [fusion] object, or [fusion] has no
    current composition, [emit] drops the record: it succeeds and the host
    is exactly as before. *)
Theorem emit_drops_without_comp
    (format : string -> string) (record : string) (h : host) :
  comp_reachable h = false ->
  emit format record h = (h, Ok tt).
Proof.
  unfold comp_reachable, emit, mbind, hostM_bind, hbind, get_current_comp.
  destruct (main_fusion h) as [[[c|]]|]; [|done|done].
  intros Hreach. apply bool_decide_eq_false in Hreach. destruct Hreach. by eexists.
Qed.

(** ** More on listing *)

Lemma ls_body_loop h fusion comp :
  main_fusion h = Some fusion ->
  CurrentComp fusion = Some comp ->
  ls_body h = ls_loop (seq 0 (length (tools h))) (record_call (CallGetToolList false) h).
Proof.
  intros Hfusion Hcomp.
  unfold ls_body, mbind, hostM_bind, hbind, get_current_comp, GetToolList.
  by rewrite Hfusion, Hcomp.
Qed.

Lemma consume_ls_ok fuel h fusion comp :
  main_fusion h = Some fusion ->
  CurrentComp fusion = Some comp ->
  let loaders := List.filter (is_loader (tools h)) (seq 0 (length (tools h))) in
  length loaders < fuel ->
  consume fuel ls h
  = Some (record_calls (CallGetToolList false :: parse_calls loaders) h,
          (LsFinished, Ok (containers_of (tools h) loaders))).
Proof.
  intros Hfusion Hcomp loaders Hfuel.
  destruct fuel as [|fuel]; [lia|].
  set (listed := record_call (CallGetToolList false) h).
  assert (Hvalid : Forall (fun tool => tool < length (tools listed))
                     (seq 0 (length (tools h)))) by apply seq_valid.
  pose proof (ls_loop_step _ listed Hvalid) as Hstep.
  change (tools listed) with (tools h) in Hstep. fold loaders in Hstep.
  assert (Hlisted : forall es, record_calls es listed
                               = record_calls (CallGetToolList false :: es) h).
  { intros es. destruct h; unfold listed, record_calls, record_call; cbn.
    by rewrite <- app_assoc. }
  cbn [consume]. unfold ls, next. rewrite (ls_body_loop _ _ _ Hfusion Hcomp).
  fold listed. destruct loaders as [|tool rest] eqn:Hloaders.
  - rewrite Hstep. rewrite <- Hlisted.
    change (parse_calls []) with (@nil event). by rewrite record_calls_nil.
  - destruct Hstep as (t & later & Ht & -> & Hlater & Hrest).
    rewrite consume_suspended; cbn [tools record_calls];
      change (tools listed) with (tools h);
      [|exact Hlater|rewrite Hrest; cbn in Hfuel; lia].
    rewrite Hrest, record_calls_app, Hlisted.
    by rewrite (containers_of_cons _ _ _ _ Ht).
Qed.

(** X12: without a reachable session the first [next] on [ls()] raises
    [AttributeError] for [GetToolList] on [None]; the generator is
    finished, nothing was asked of the host, and consuming it raises the
    same error. *)
Theorem ls_without_comp (h : host) :
  comp_reachable h = false ->
  next ls h = (h, (LsFinished, Raise (AttributeError "GetToolList"))) /\
  (forall fuel, 0 < fuel ->
     consume fuel ls h = Some (h, (LsFinished, Raise (AttributeError "GetToolList")))).
Proof.
  intros Hreach.
  assert (Hnext : next ls h = (h, (LsFinished, Raise (AttributeError "GetToolList")))).
  { unfold comp_reachable in Hreach.
    unfold ls, next, ls_body, mbind, hostM_bind, hbind, get_current_comp, GetToolList.
    destruct (main_fusion h) as [[[c|]]|]; [|done|done].
    apply bool_decide_eq_false in Hreach. destruct Hreach. by eexists. }
  split; [exact Hnext|].
  intros [|fuel] Hfuel; [lia|]. cbn [consume]. by rewrite Hnext.
Qed.

Lemma containers_of_loaders ts handles :
  Forall (fun tool => tool < length ts) handles ->
  Forall (fun tool => is_loader ts tool = true) handles ->
  Forall2 (fun tool container =>
             exists t, ts !! tool = Some t /\ tool_ID t = "Loader" /\
                       container = container_of tool t)
          handles (containers_of ts handles).
Proof.
  induction handles as [|tool handles IH]; intros Hvalid Hloader; [constructor|].
  apply Forall_cons in Hvalid as [Htool Hvalid].
  apply Forall_cons in Hloader as [Hkind Hloader].
  destruct (lookup_lt_is_Some_2 _ _ Htool) as [t Ht].
  rewrite (containers_of_cons _ _ _ _ Ht). constructor; [|by apply IH].
  exists t. split; [exact Ht|]. split; [|done].
  unfold is_loader in Hkind. rewrite Ht in Hkind.
  apply bool_decide_eq_true in Hkind. by apply list_elem_of_singleton in Hkind.
Qed.

(** X13: consuming [ls()] yields one container per tool of the
    ["Loader"] kind and no other: every container yielded points back,
    through [_tool], to a ["Loader"] tool of the composition and is what
    [parse_container] reads from it, and every ["Loader"] tool, imprinted or
    not, has its container in the result. *)
Theorem ls_lists_every_loader
    (h : host) (fusion : fusion_obj) (comp : comp_handle) :
  main_fusion h = Some fusion ->
  CurrentComp fusion = Some comp ->
  exists h' items,
    consume (S (length (tools h))) ls h = Some (h', (LsFinished, Ok items)) /\
    Forall (fun container =>
              exists tool t,
                tools h !! tool = Some t /\ tool_ID t = "Loader" /\
                container = container_of tool t /\
                container !! "_tool" = Some (ToolRef tool)) items /\
    (forall tool t,
       tools h !! tool = Some t -> tool_ID t = "Loader" ->
       container_of tool t ∈ items).
Proof.
  intros Hfusion Hcomp.
  set (loaders := List.filter (is_loader (tools h)) (seq 0 (length (tools h)))).
  assert (Hlen : length loaders < S (length (tools h))).
  { pose proof (filter_length_le (is_loader (tools h)) (seq 0 (length (tools h)))) as Hle.
    rewrite length_seq in Hle. unfold loaders. lia. }
  rewrite (consume_ls_ok _ _ _ _ Hfusion Hcomp Hlen). fold loaders.
  eexists _, _. split; [reflexivity|].
  assert (Hvalid : Forall (fun tool => tool < length (tools h)) loaders).
  { apply Forall_forall. intros i Hi. apply list_elem_of_In, filter_In in Hi as [Hi _].
    apply list_elem_of_In, elem_of_seq in Hi. lia. }
  assert (Hkind : Forall (fun tool => is_loader (tools h) tool = true) loaders).
  { apply Forall_forall. intros i Hi. by apply list_elem_of_In, filter_In in Hi as [_ Hi]. }
  pose proof (containers_of_loaders _ _ Hvalid Hkind) as Hall.
  split.
  - apply Forall_forall. intros container Hin.
    destruct (proj1 (list_elem_of_lookup _ _) Hin) as [n Hn].
    destruct (Forall2_lookup_r _ _ _ _ _ Hall Hn) as (tool & _ & t & Ht & Hid & ->).
    exists tool, t. split; [exact Ht|]. split; [exact Hid|]. split; [reflexivity|].
    apply container_of_tool.
  - intros tool t Ht Hid.
    assert (Hin : tool ∈ loaders).
    { apply list_elem_of_In, filter_In. split.
      - apply list_elem_of_In, elem_of_seq. apply lookup_lt_Some in Ht. lia.
      - unfold is_loader. rewrite Ht, Hid. reflexivity. }
    destruct (proj1 (list_elem_of_lookup _ _) Hin) as [n Hn].
    destruct (Forall2_lookup_l _ _ _ _ _ Hall Hn) as (container & Hc & t' & Ht' & _ & ->).
    rewrite Ht in Ht'. injection Ht' as <-.
    apply list_elem_of_lookup. by exists n.
Qed.

(** X14: a generator cannot be restarted, but [ls()] can be called
    again: consuming a second generator, on the host the first one left,
    yields the same containers. *)
Theorem ls_rescan
    (h : host) (fusion : fusion_obj) (comp : comp_handle) :
  main_fusion h = Some fusion ->
  CurrentComp fusion = Some comp ->
  exists h1 h2 items,
    consume (S (length (tools h))) ls h = Some (h1, (LsFinished, Ok items)) /\
    consume (S (length (tools h))) LsFinished h1 = Some (h1, (LsFinished, Ok [])) /\
    consume (S (length (tools h))) ls h1 = Some (h2, (LsFinished, Ok items)) /\
    tools h2 = tools h.
Proof.
  intros Hfusion Hcomp.
  set (loaders := List.filter (is_loader (tools h)) (seq 0 (length (tools h)))).
  assert (Hlen : length loaders < S (length (tools h))).
  { pose proof (filter_length_le (is_loader (tools h)) (seq 0 (length (tools h)))) as Hle.
    rewrite length_seq in Hle. unfold loaders. lia. }
  rewrite (consume_ls_ok _ _ _ _ Hfusion Hcomp Hlen). fold loaders.
  eexists _, _, _. split; [reflexivity|]. split; [reflexivity|].
  rewrite (consume_ls_ok _ _ fusion comp); [split; reflexivity|exact Hfusion|exact Hcomp|].
  exact Hlen.
Qed.

(** X15: the generator reads a tool when it reaches it, not when it was
    created: a tool imprinted while the generator is suspended before it
    is yielded with the imprinted values. *)
Theorem ls_sees_later_imprint
    (h : host) (tool : handle) (t : tool_obj) (rest : list handle)
    (name namespace _id : pyval) (loader : option pyval)
    (context : gmap string ctx_entry) (d : gmap string pyval) :
  tools h !! tool = Some t ->
  tool_ID t = "Loader" ->
  context !! "representation" = Some (CtxDict d) ->
  d !! "_id" = Some _id ->
  exists h1 h2 container,
    imprint_container tool name namespace context loader h = (h1, Ok tt) /\
    next (LsSuspended (tool :: rest)) h1
    = (h2, (LsSuspended rest, Ok (Some container))) /\
    container !! "name" = Some (Val (PyStr (py_str name))) /\
    container !! "namespace" = Some (Val (PyStr (py_str namespace))) /\
    container !! "representation" = Some (Val (PyStr (py_str _id))) /\
    container !! "objectName" = Some (Val (PyStr (tool_Name t))).
Proof.
  intros Ht Hkind Hrep Hid.
  assert (Hctx : context_id context = Some _id) by (unfold context_id; by rewrite Hrep).
  rewrite (imprint_container_ok _ _ _ _ _ _ _ _ Ht Hctx).
  set (data := imprint_data name namespace (default PyNone loader) _id).
  pose proof (tools_after_imprint h tool t (attach data (tool_data t)) Ht) as Ht1.
  eexists _, _, _. split; [reflexivity|].
  unfold next. cbn [ls_loop]. unfold mbind, hostM_bind, hbind, get_ID.
  cbn [tools record_calls]. rewrite Ht1. cbn [tool_ID with_data]. rewrite Hkind.
  rewrite bool_decide_eq_true_2 by (apply list_elem_of_singleton; reflexivity).
  erewrite parse_container_ok by (cbn [tools record_calls]; exact Ht1).
  split; [reflexivity|].
  destruct (attach_imprint_data name namespace (default PyNone loader) _id (tool_data t))
    as (_ & _ & Hn & Hns & _ & Hr).
  rewrite !container_of_field by (unfold parse_keys; set_solver).
  pose (field := fun o : option pyval => Some (Val (default PyNone o))).
  split; [exact (f_equal field Hn)|]. split; [exact (f_equal field Hns)|].
  split; [exact (f_equal field Hr)|]. by rewrite container_of_objectName.
Qed.

(** ** More on installation *)

Lemma install_after_hooks sys_path config_name h h1 :
  install_hooks h = (h1, Ok tt) ->
  install sys_path config_name h
  = try_import_else
      (import_module sys_path (config_name ++ ".fusion"))
      (fun config =>
         match mod_install config with
         | Some config_install => config_install
         | None => mret tt
         end) h1.
Proof.
  intros Hhooks. unfold install, mbind, hostM_bind, hbind. by rewrite Hhooks.
Qed.

(** X16: [install] replaces the handlers of the root logger: whatever
    handlers were attached before, with no [<config>.fusion] module the
    root logger ends with the one [CompLogHandler] and its message-line
    formatter, at level [DEBUG], with ["fusion"] registered as a host, and
    the tools of the composition are untouched. *)
Theorem install_replaces_log_handlers
    (sys_path : gmap string import_outcome) (config_name : string) (h : host) :
  sys_path !! (config_name ++ ".fusion") = None ->
  exists h',
    install sys_path config_name h = (h', Ok tt) /\
    root_handlers h' = [CompLogHandler (Some message_line)] /\
    root_level h' = DEBUG /\
    "fusion" ∈ registered_hosts h' /\
    calls h' = (calls h ++ [CallRegisterHost "fusion"])%list /\
    tools h' = tools h.
Proof.
  intros Habsent.
  destruct (install_hooks_ok h) as (h1 & Hhooks & Hcalls & Hreg & Hhandlers & Hlevel & Htools).
  exists h1. rewrite (install_after_hooks _ _ _ _ Hhooks).
  unfold try_import_else, import_module. rewrite Habsent. done.
Qed.

(** X17: installing twice does not stack log handlers: after a second
    [install] the root logger still has the single [CompLogHandler]. *)
Theorem install_twice_one_handler
    (sys_path : gmap string import_outcome) (config_name : string) (h : host) :
  sys_path !! (config_name ++ ".fusion") = None ->
  exists h',
    (install sys_path config_name;; install sys_path config_name) h = (h', Ok tt) /\
    root_handlers h' = [CompLogHandler (Some message_line)] /\
    root_level h' = DEBUG /\
    calls h' = (calls h ++ [CallRegisterHost "fusion"; CallRegisterHost "fusion"])%list /\
    tools h' = tools h.
Proof.
  intros Habsent.
  assert (Hone : forall h0, exists h1,
            install sys_path config_name h0 = (h1, Ok tt) /\
            root_handlers h1 = [CompLogHandler (Some message_line)] /\
            root_level h1 = DEBUG /\
            calls h1 = (calls h0 ++ [CallRegisterHost "fusion"])%list /\
            tools h1 = tools h0).
  { intros h0.
    destruct (install_hooks_ok h0) as (h1 & Hhooks & Hcalls & _ & Hhandlers & Hlevel & Htools).
    exists h1. rewrite (install_after_hooks _ _ _ _ Hhooks).
    unfold try_import_else, import_module. rewrite Habsent. done. }
  destruct (Hone h) as (h1 & Hrun1 & _ & _ & Hcalls1 & Htools1).
  destruct (Hone h1) as (h2 & Hrun2 & Hhandlers & Hlevel & Hcalls2 & Htools2).
  exists h2. unfold mbind, hostM_bind, hbind. rewrite Hrun1, Hrun2.
  split; [reflexivity|]. split; [exact Hhandlers|]. split; [exact Hlevel|].
  split; [by rewrite Hcalls2, Hcalls1, <- app_assoc|]. by rewrite Htools2.
Qed.

(** X18: an [ImportError] raised while [<config>.fusion] itself loads (a
    module it imports does not exist) is swallowed like a missing
    submodule: [install] completes and no entry point is called. *)
Theorem install_swallows_nested_import_error
    (sys_path : gmap string import_outcome) (config_name missing : string) (h : host) :
  sys_path !! (config_name ++ ".fusion") = Some (ImportFails (ImportError missing)) ->
  exists h',
    install_hooks h = (h', Ok tt) /\
    install sys_path config_name h = (h', Ok tt).
Proof.
  intros Hfails.
  destruct (install_hooks_ok h) as (h1 & Hhooks & _).
  exists h1. split; [exact Hhooks|]. rewrite (install_after_hooks _ _ _ _ Hhooks).
  unfold try_import_else, import_module. by rewrite Hfails.
Qed.

(** X19: any other exception raised while [<config>.fusion] loads is not
    caught: [install] raises it, after the host was registered and the log
    handler replaced. *)
Theorem install_propagates_other_errors
    (sys_path : gmap string import_outcome) (config_name : string) (e : exn) (h : host) :
  sys_path !! (config_name ++ ".fusion") = Some (ImportFails e) ->
  (forall missing, e <> ImportError missing) ->
  exists h',
    install sys_path config_name h = (h', Raise e) /\
    root_handlers h' = [CompLogHandler (Some message_line)] /\
    "fusion" ∈ registered_hosts h'.
Proof.
  intros Hfails Hother.
  destruct (install_hooks_ok h) as (h1 & Hhooks & _ & Hreg & Hhandlers & _).
  exists h1. rewrite (install_after_hooks _ _ _ _ Hhooks).
  unfold try_import_else, import_module. rewrite Hfails.
  split; [|done]. cbn. destruct e; try reflexivity. by destruct (Hother module_name).
Qed.

(** ** Parsed values imprint back unchanged *)

(** X20: the values [parse_container] returns for an imprinted tool are
    strings that [str()] leaves alone, so imprinting the tool again with
    them (and a context holding the parsed representation) changes no
    tool. *)
Theorem reimprint_parsed_values
    (h : host) (tool : handle) (t : tool_obj) (name namespace _id : pyval)
    (loader : option pyval)
    (context context' : gmap string ctx_entry) (d d' : gmap string pyval) :
  tools h !! tool = Some t ->
  context !! "representation" = Some (CtxDict d) -> d !! "_id" = Some _id ->
  context' !! "representation" = Some (CtxDict d') ->
  d' !! "_id" = Some (PyStr (py_str _id)) ->
  exists h1 h2,
    imprint_container tool name namespace context loader h = (h1, Ok tt) /\
    imprint_container tool (PyStr (py_str name)) (PyStr (py_str namespace)) context'
      (Some (PyStr (py_str (default PyNone loader)))) h1 = (h2, Ok tt) /\
    tools h2 = tools h1.
Proof.
  intros Ht Hrep Hid Hrep' Hid'.
  assert (Hctx : context_id context = Some _id) by (unfold context_id; by rewrite Hrep).
  assert (Hctx' : context_id context' = Some (PyStr (py_str _id)))
    by (unfold context_id; by rewrite Hrep').
  rewrite (imprint_container_ok _ _ _ _ _ _ _ _ Ht Hctx).
  set (data := imprint_data name namespace (default PyNone loader) _id).
  pose proof (tools_after_imprint h tool t (attach data (tool_data t)) Ht) as Ht1.
  eexists _, _. split; [reflexivity|].
  erewrite imprint_container_ok; [|cbn [tools record_calls]; exact Ht1|exact Hctx'].
  split; [reflexivity|].
  cbn [tools record_calls set_tools with_data tool_data tool_Name tool_ID
       default from_option id py_str].
  rewrite list_insert_insert_eq. fold data.
  unfold data at 1. fold (imprint_data name namespace (default PyNone loader) _id).
  by rewrite attach_imprint_data_twice.
Qed.

(** * The further properties on the example *)

Lemma imprint_container_frame_example :
  exists h' t',
    imprint_container 2 (PyStr "chair_01") (PyStr "charA") example_context None
      example_host = (h', Ok tt) /\
    tools h' !! 2 = Some t' /\
    tool_Name t' = "Loader2" /\
    tool_ID t' = "Loader" /\
    tools h' !! 0 = Some (mkTool "Loader1" "Loader" ∅) /\
    tools h' !! 1 = Some (mkTool "Merge1" "Merge" ∅) /\
    length (tools h') = 3.
Proof.
  destruct (imprint_container_frame example_host 2
              (mkTool "Loader2" "Loader" {["avalon.name" := PyStr "old"]})
              (PyStr "chair_01") (PyStr "charA") (PyObj "60f") None
              example_context example_representation eq_refl eq_refl eq_refl)
    as (h' & t' & Hrun & Ht' & Hname & Hkind & _ & Hothers & Hlen & _).
  exists h', t'. split; [exact Hrun|]. split; [exact Ht'|].
  split; [exact Hname|]. split; [exact Hkind|].
  split; [rewrite Hothers by lia; reflexivity|].
  split; [rewrite Hothers by lia; reflexivity|]. exact Hlen.
Defined.

Lemma imprint_container_context_irrelevant_example :
  imprint_container 0 (PyStr "chair_01") (PyStr "charA") example_context None example_host
  = imprint_container 0 (PyStr "chair_01") (PyStr "charA")
      (<["asset" := CtxVal (PyStr "chair")]> example_context) None example_host.
Proof.
  apply (imprint_container_context_irrelevant example_host 0
           (PyStr "chair_01") (PyStr "charA") (PyObj "60f") None
           example_context (<["asset" := CtxVal (PyStr "chair")]> example_context)
           example_representation example_representation); reflexivity.
Defined.

Lemma imprint_container_representation_not_dict_example :
  imprint_container 0 (PyStr "chair_01") (PyStr "charA")
    {["representation" := CtxVal PyNone]} None example_host
  = (example_host, Raise TypeError).
Proof.
  apply (imprint_container_representation_not_dict example_host 0
           (PyStr "chair_01") (PyStr "charA") PyNone None).
  reflexivity.
Defined.

Lemma parse_container_keys_example :
  exists h' container,
    parse_container 2 example_host = (h', Ok container) /\
    dom container = container_keys /\
    size container = 8.
Proof.
  apply (parse_container_keys example_host 2
           (mkTool "Loader2" "Loader" {["avalon.name" := PyStr "old"]})).
  reflexivity.
Defined.



Lemma emit_prints_on_console_example :
  exists h',
    emit (fun message => message ++ "!") "loaded" example_host = (h', Ok tt) /\
    console h' = ["loaded!"] /\
    calls h' = [CallPrint "loaded!"] /\
    tools h' = example_tools /\
    lock_depth h' = 0 /\
    undo_open h' = [].
Proof.
  exact (emit_prints_on_console (fun message => message ++ "!") "loaded" example_host
           (mkFusion (Some TheComp)) TheComp eq_refl eq_refl).
Defined.

Lemma emit_drops_without_comp_example :
  emit (fun message => message ++ "!") "loaded" example_host_no_fusion
  = (example_host_no_fusion, Ok tt).
Proof.
  apply (emit_drops_without_comp (fun message => message ++ "!") "loaded"
           example_host_no_fusion).
  reflexivity.
Defined.

Lemma ls_without_comp_example :
  next ls example_host_no_fusion
  = (example_host_no_fusion, (LsFinished, Raise (AttributeError "GetToolList"))) /\
  consume 4 ls example_host_no_fusion
  = Some (example_host_no_fusion, (LsFinished, Raise (AttributeError "GetToolList"))).
Proof.
  destruct (ls_without_comp example_host_no_fusion eq_refl) as [Hnext Hconsume].
  split; [exact Hnext|]. apply Hconsume. lia.
Defined.

Lemma ls_lists_every_loader_example :
  exists h' items,
    consume 4 ls example_host = Some (h', (LsFinished, Ok items)) /\
    container_of 0 (mkTool "Loader1" "Loader" ∅) ∈ items /\
    container_of 2 (mkTool "Loader2" "Loader" {["avalon.name" := PyStr "old"]}) ∈ items.
Proof.
  destruct (ls_lists_every_loader example_host (mkFusion (Some TheComp)) TheComp
              eq_refl eq_refl) as (h' & items & Hrun & _ & Hall).
  exists h', items. split; [exact Hrun|].
  split; apply Hall; reflexivity.
Defined.

Lemma ls_rescan_example :
  exists h1 h2 items,
    consume 4 ls example_host = Some (h1, (LsFinished, Ok items)) /\
    consume 4 LsFinished h1 = Some (h1, (LsFinished, Ok [])) /\
    consume 4 ls h1 = Some (h2, (LsFinished, Ok items)) /\
    tools h2 = example_tools.
Proof.
  exact (ls_rescan example_host (mkFusion (Some TheComp)) TheComp eq_refl eq_refl).
Defined.

Lemma ls_sees_later_imprint_example :
  exists h1 h2 container,
    imprint_container 2 (PyStr "chair_01") (PyStr "charA") example_context None
      example_host = (h1, Ok tt) /\
    next (LsSuspended [2]) h1 = (h2, (LsSuspended [], Ok (Some container))) /\
    container !! "name" = Some (Val (PyStr "chair_01")) /\
    container !! "namespace" = Some (Val (PyStr "charA")) /\
    container !! "representation" = Some (Val (PyStr "60f")) /\
    container !! "objectName" = Some (Val (PyStr "Loader2")).
Proof.
  exact (ls_sees_later_imprint example_host 2
           (mkTool "Loader2" "Loader" {["avalon.name" := PyStr "old"]}) []
           (PyStr "chair_01") (PyStr "charA") (PyObj "60f") None
           example_context example_representation eq_refl eq_refl eq_refl eq_refl).
Defined.

Lemma install_replaces_log_handlers_example :
  exists h',
    install ∅ "polly" example_host = (h', Ok tt) /\
    root_handlers h' = [CompLogHandler (Some message_line)] /\
    root_level h' = DEBUG /\
    "fusion" ∈ registered_hosts h' /\
    calls h' = [CallRegisterHost "fusion"] /\
    tools h' = example_tools.
Proof.
  exact (install_replaces_log_handlers ∅ "polly" example_host eq_refl).
Defined.

Lemma install_twice_one_handler_example :
  exists h',
    (install ∅ "polly";; install ∅ "polly") example_host = (h', Ok tt) /\
    root_handlers h' = [CompLogHandler (Some message_line)] /\
    root_level h' = DEBUG /\
    calls h' = [CallRegisterHost "fusion"; CallRegisterHost "fusion"] /\
    tools h' = example_tools.
Proof.
  exact (install_twice_one_handler ∅ "polly" example_host eq_refl).
Defined.

Lemma install_swallows_nested_import_error_example :
  exists h',
    install_hooks example_host = (h', Ok tt) /\
    install example_sys_path_nested "polly" example_host = (h', Ok tt).
Proof.
  exact (install_swallows_nested_import_error example_sys_path_nested "polly"
           "pyblish_qml" example_host eq_refl).
Defined.

Lemma install_propagates_other_errors_example :
  exists h',
    install example_sys_path_broken "polly" example_host
    = (h', Raise (OtherError "syntax error")) /\
    root_handlers h' = [CompLogHandler (Some message_line)] /\
    "fusion" ∈ registered_hosts h'.
Proof.
  apply (install_propagates_other_errors example_sys_path_broken "polly"
           (OtherError "syntax error") example_host); [reflexivity|].
  intros missing Heq. discriminate Heq.
Defined.

Lemma reimprint_parsed_values_example :
  exists h1 h2,
    imprint_container 0 (PyInt 7) (PyStr "charA") example_context None
      example_host = (h1, Ok tt) /\
    imprint_container 0 (PyStr "7") (PyStr "charA")
      {["representation" := CtxDict {["_id" := PyStr "60f"]}]}
      (Some (PyStr "None")) h1 = (h2, Ok tt) /\
    tools h2 = tools h1.
Proof.
  exact (reimprint_parsed_values example_host 0 (mkTool "Loader1" "Loader" ∅)
           (PyInt 7) (PyStr "charA") (PyObj "60f") None
           example_context {["representation" := CtxDict {["_id" := PyStr "60f"]}]}
           example_representation {["_id" := PyStr "60f"]}
           eq_refl eq_refl eq_refl eq_refl eq_refl).
Defined.
